(** * Playlist logic

    A shallow embedding of [playlist_logic.py]: the normalizer, the mood
    classifier, the playlist builder, merging, statistics, searching, the
    membership test, the random pick and the history summary, together with
    the properties the specification states about them and further
    properties read off the code.

    The module works on Python dictionaries holding heterogeneous values,
    and several of its functions raise when a value has the wrong type
    ([None >= 7], [sum] over a string, an unhashable dictionary key).  The
    model therefore keeps Python's dynamic typing: values are an inductive
    type [pyval], dictionaries are insertion-ordered association lists, and
    every operation that can raise returns in an error monad.

    Boundaries of the model.
    - Values are [None], booleans, integers, strings and lists of values;
      floats and nested dictionaries are left out.
    - A character is a Rocq [ascii], read as a code point below 256; on
      that range [str.lower], [str.strip], [str.isspace], [repr] and [int]
      are modelled as CPython defines them.
    - [int(text)] and [str(number)] are modelled without the interpreter's
      configurable cap on the number of digits they convert.
    - The float a true division returns is represented by the exact
      quotient it rounds, a rational; the division raises [OverflowError]
      where CPython's does, but the rounding itself is not modelled. *)

From Stdlib Require Import ZArith List String Ascii Bool Lia QArith.
From Stdlib Require Import DecimalString DecimalZ.
Import ListNotations.

Local Open Scope string_scope.
Local Open Scope list_scope.
Local Open Scope Z_scope.

(** ** Exceptions and the error monad *)

Inductive exn : Type :=
| TypeError
| KeyError
| IndexError
| ZeroDivisionError
| OverflowError.

Inductive result (A : Type) : Type :=
| Ok (a : A)
| Raise (e : exn).

Arguments Ok {A} a.
Arguments Raise {A} e.

Definition bind {A B : Type} (c : result A) (k : A -> result B) : result B :=
  match c with
  | Ok a => k a
  | Raise e => Raise e
  end.

Notation "x <- c ;; k" := (bind c (fun x => k))
  (at level 61, c at next level, right associativity).

(** A [for] loop whose body can raise: the first exception ends the loop. *)
Fixpoint for_each {A S : Type} (body : S -> A -> result S) (xs : list A) (s : S)
  : result S :=
  match xs with
  | [] => Ok s
  | x :: xs' => s' <- body s x ;; for_each body xs' s'
  end.

(** ** Python values *)

#[warning="-register-all"]
Inductive pyval : Type :=
| VNone
| VBool (b : bool)
| VInt (z : Z)
| VStr (s : string)
| VList (l : list pyval).

(** ** Characters and strings *)

Module PyStr.

Definition code (c : ascii) : N := N_of_ascii c.

Definition between (lo hi n : N) : bool := ((lo <=? n) && (n <=? hi))%N.

(** [str.isspace] on code points below 256. *)
Definition is_space (c : ascii) : bool :=
  let n := code c in
  between 9 13 n || between 28 32 n || (n =? 133)%N || (n =? 160)%N.

(** The upper-case letters below 256: A-Z and the Latin-1 capitals
    except the multiplication sign. *)
Definition is_upper (c : ascii) : bool :=
  let n := code c in
  between 65 90 n || (between 192 222 n && negb (n =? 215)%N).

Definition lower_char (c : ascii) : ascii :=
  if is_upper c then ascii_of_N (code c + 32) else c.

(** [s.lower()] *)
Fixpoint lower (s : string) : string :=
  match s with
  | EmptyString => EmptyString
  | String c s' => String (lower_char c) (lower s')
  end.

Fixpoint lstrip (s : string) : string :=
  match s with
  | EmptyString => EmptyString
  | String c s' => if is_space c then lstrip s' else s
  end.

Fixpoint rstrip (s : string) : string :=
  match s with
  | EmptyString => EmptyString
  | String c s' =>
      match rstrip s' with
      | EmptyString => if is_space c then EmptyString else String c EmptyString
      | r => String c r
      end
  end.

(** [s.strip()] *)
Definition strip (s : string) : string := lstrip (rstrip s).

(** [k in s] for two strings: [k] occurs in [s] as a substring. *)
Fixpoint contains (k s : string) : bool :=
  prefix k s ||
  match s with
  | EmptyString => false
  | String _ s' => contains k s'
  end.

Definition starts_with_space (s : string) : bool :=
  match s with
  | EmptyString => false
  | String c _ => is_space c
  end.

Fixpoint ends_with_space (s : string) : bool :=
  match s with
  | EmptyString => false
  | String c EmptyString => is_space c
  | String _ s' => ends_with_space s'
  end.

Fixpoint has_upper (s : string) : bool :=
  match s with
  | EmptyString => false
  | String c s' => is_upper c || has_upper s'
  end.

(** *** [int(text)] *)

(** The white space [int] skips around the number: the C locale's white
    space, and the two other space characters below 256. *)
Definition is_int_space (c : ascii) : bool :=
  let n := code c in
  between 9 13 n || (n =? 32)%N || (n =? 133)%N || (n =? 160)%N.

Fixpoint int_lstrip (s : string) : string :=
  match s with
  | EmptyString => EmptyString
  | String c s' => if is_int_space c then int_lstrip s' else s
  end.

Fixpoint int_rstrip (s : string) : string :=
  match s with
  | EmptyString => EmptyString
  | String c s' =>
      match int_rstrip s' with
      | EmptyString => if is_int_space c then EmptyString else String c EmptyString
      | r => String c r
      end
  end.

Definition is_digit (c : ascii) : bool := between 48 57 (code c).

Definition digit_value (c : ascii) : Z := Z.of_N (code c) - 48.

(** The digits after the first one: a digit, or one underscore followed
    by a digit. *)
Fixpoint int_digits (acc : Z) (s : string) : option Z :=
  match s with
  | EmptyString => Some acc
  | String c s' =>
      if is_digit c then int_digits (10 * acc + digit_value c) s'
      else if (c =? "_")%char then
        match s' with
        | String d s'' =>
            if is_digit d then int_digits (10 * acc + digit_value d) s''
            else None
        | EmptyString => None
        end
      else None
  end.

Definition int_unsigned (s : string) : option Z :=
  match s with
  | String c s' => if is_digit c then int_digits (digit_value c) s' else None
  | EmptyString => None
  end.

(** [int(s)] in base ten; [None] stands for [ValueError]. *)
Definition to_int (s : string) : option Z :=
  match int_lstrip (int_rstrip s) with
  | String "+" s' => int_unsigned s'
  | String "-" s' => option_map Z.opp (int_unsigned s')
  | s' => int_unsigned s'
  end.

(** *** [repr(text)] *)

Definition squote : ascii := ascii_of_nat 39.
Definition dquote : ascii := ascii_of_nat 34.
Definition backslash : ascii := ascii_of_nat 92.

Fixpoint mem_char (c : ascii) (s : string) : bool :=
  match s with
  | EmptyString => false
  | String d s' => (c =? d)%char || mem_char c s'
  end.

Definition hex_digit (n : N) : ascii :=
  if (n <? 10)%N then ascii_of_N (48 + n) else ascii_of_N (87 + n).

(** Code points [repr] shows as they are. *)
Definition is_printable (c : ascii) : bool :=
  let n := code c in
  between 32 126 n || (between 161 255 n && negb (n =? 173)%N).

Definition escape_char (quote c : ascii) : string :=
  let n := code c in
  if (c =? quote)%char || (c =? backslash)%char then String backslash (String c EmptyString)
  else if (n =? 9)%N then String backslash "t"
  else if (n =? 10)%N then String backslash "n"
  else if (n =? 13)%N then String backslash "r"
  else if is_printable c then String c EmptyString
  else String backslash (String "x" (String (hex_digit (n / 16)) (String (hex_digit (n mod 16)) EmptyString))).

Fixpoint escape (quote : ascii) (s : string) : string :=
  match s with
  | EmptyString => EmptyString
  | String c s' => escape_char quote c ++ escape quote s'
  end.

Definition repr (s : string) : string :=
  let quote := if mem_char squote s && negb (mem_char dquote s) then dquote else squote in
  String quote (escape quote s ++ String quote EmptyString).

End PyStr.

(** ** Operations on values *)

Definition bool_to_Z (b : bool) : Z := if b then 1 else 0.

(** The integer a value denotes in arithmetic: [bool] is a subclass of
    [int]. *)
Definition as_int (v : pyval) : option Z :=
  match v with
  | VInt z => Some z
  | VBool b => Some (bool_to_Z b)
  | _ => None
  end.

Definition int_to_string (z : Z) : string := NilZero.string_of_int (Z.to_int z).

Fixpoint join (sep : string) (parts : list string) : string :=
  match parts with
  | [] => EmptyString
  | [p] => p
  | p :: rest => p ++ sep ++ join sep rest
  end.

(** [repr(v)] *)
Fixpoint py_repr (v : pyval) : string :=
  match v with
  | VNone => "None"
  | VBool true => "True"
  | VBool false => "False"
  | VInt z => int_to_string z
  | VStr s => PyStr.repr s
  | VList l => "[" ++ join ", " (map py_repr l) ++ "]"
  end.

(** [str(v)] *)
Definition py_str (v : pyval) : string :=
  match v with
  | VStr s => s
  | _ => py_repr v
  end.

(** [bool(v)], the test of [if v] and [if not v]. *)
Definition truthy (v : pyval) : bool :=
  match v with
  | VNone => false
  | VBool b => b
  | VInt z => negb (z =? 0)
  | VStr s => negb (s =? "")%string
  | VList l => match l with [] => false | _ => true end
  end.

(** [a == b] *)
Fixpoint py_eqb (a b : pyval) : bool :=
  match a, b with
  | VNone, VNone => true
  | VStr s, VStr t => (s =? t)%string
  | VList l, VList m =>
      (fix all_eq (l m : list pyval) : bool :=
         match l, m with
         | [], [] => true
         | x :: l', y :: m' => py_eqb x y && all_eq l' m'
         | _, _ => false
         end) l m
  | (VBool _ | VInt _), (VBool _ | VInt _) =>
      match as_int a, as_int b with
      | Some x, Some y => x =? y
      | _, _ => false
      end
  | _, _ => false
  end.

(** The ordering comparisons [a >= b] and [a <= b], given by the test the
    operator makes on the three-way comparison.  Numbers compare by
    value, strings and lists lexicographically; any other pair of types
    raises [TypeError]. *)
Fixpoint py_order (test : comparison -> bool) (a b : pyval) : result bool :=
  match a, b with
  | VStr s, VStr t => Ok (test (String.compare s t))
  | VList l, VList m =>
      (fix lex (l m : list pyval) : result bool :=
         match l, m with
         | [], [] => Ok (test Eq)
         | [], _ :: _ => Ok (test Lt)
         | _ :: _, [] => Ok (test Gt)
         | x :: l', y :: m' => if py_eqb x y then lex l' m' else py_order test x y
         end) l m
  | (VBool _ | VInt _), (VBool _ | VInt _) =>
      match as_int a, as_int b with
      | Some x, Some y => Ok (test (x ?= y))
      | _, _ => Raise TypeError
      end
  | _, _ => Raise TypeError
  end.

Definition py_ge : pyval -> pyval -> result bool :=
  py_order (fun c => match c with Lt => false | _ => true end).

Definition py_le : pyval -> pyval -> result bool :=
  py_order (fun c => match c with Gt => false | _ => true end).

(** [k in v] for a string [k]: substring of a string, member of a list;
    the other types are not containers. *)
Definition py_in (k : string) (v : pyval) : result bool :=
  match v with
  | VStr s => Ok (PyStr.contains k s)
  | VList l => Ok (existsb (fun x => py_eqb (VStr k) x) l)
  | _ => Raise TypeError
  end.

(** [any(k in v for k in keywords)]: stops at the first hit. *)
Fixpoint any_in (keywords : list string) (v : pyval) : result bool :=
  match keywords with
  | [] => Ok false
  | k :: rest => hit <- py_in k v ;; if hit then Ok true else any_in rest v
  end.

(** [sum(values)]: starts from the integer 0 and adds from left to
    right; only a number can be added to an integer. *)
Definition add_to (acc : Z) (v : pyval) : result Z :=
  match as_int v with
  | Some z => Ok (acc + z)
  | None => Raise TypeError
  end.

Definition py_sum (values : list pyval) : result Z := for_each add_to values 0.

(** The least magnitude that no float can hold: halfway between the
    largest float, [2^1024 - 2^971], and [2^1024], where rounding to
    nearest goes up. *)
Definition float_overflow : Z := 2 ^ 1024 - 2 ^ 970.

(** [n / d] on integers.  The division raises [OverflowError] when the
    quotient rounds out of the range of a float; otherwise it returns the
    float nearest to the quotient, for which the exact quotient stands. *)
Definition true_div (n d : Z) : result Q :=
  if d =? 0 then Raise ZeroDivisionError
  else if float_overflow * Z.abs d <=? Z.abs n then Raise OverflowError
  else Ok (inject_Z n / inject_Z d)%Q.

(** Whether a value can be a dictionary key. *)
Definition hashable (v : pyval) : bool :=
  match v with
  | VList _ => false
  | _ => true
  end.

(** ** Dictionaries

    A [dict] with string keys, as an association list in insertion order:
    iteration ([keys], [values]) follows it, and [d[k] = v] keeps the place
    of a key that is already there. *)

Section Dict.
Context {V : Type}.

Definition dict : Type := list (string * V).

Fixpoint lookup (d : dict) (k : string) : option V :=
  match d with
  | [] => None
  | (k', v) :: d' => if (k' =? k)%string then Some v else lookup d' k
  end.

(** [d.get(k, default)] *)
Definition get (d : dict) (k : string) (default : V) : V :=
  match lookup d k with
  | Some v => v
  | None => default
  end.

(** [d[k]] *)
Definition getitem (d : dict) (k : string) : result V :=
  match lookup d k with
  | Some v => Ok v
  | None => Raise KeyError
  end.

(** [d[k] = v] *)
Fixpoint setitem (d : dict) (k : string) (v : V) : dict :=
  match d with
  | [] => [(k, v)]
  | (k', v') :: d' =>
      if (k' =? k)%string then (k', v) :: d' else (k', v') :: setitem d' k v
  end.

Definition keys (d : dict) : list string := map fst d.

Definition values (d : dict) : list V := map snd d.
End Dict.

Arguments dict V : clear implicits.

(** The same with arbitrary hashable values as keys, compared with [==]. *)
Section ValueDict.
Context {V : Type}.

Definition vdict : Type := list (pyval * V).

Fixpoint vlookup (d : vdict) (k : pyval) : option V :=
  match d with
  | [] => None
  | (k', v) :: d' => if py_eqb k' k then Some v else vlookup d' k
  end.

Definition vget (d : vdict) (k : pyval) (default : V) : result V :=
  if hashable k then
    Ok match vlookup d k with Some v => v | None => default end
  else Raise TypeError.

Fixpoint vinsert (d : vdict) (k : pyval) (v : V) : vdict :=
  match d with
  | [] => [(k, v)]
  | (k', v') :: d' =>
      if py_eqb k' k then (k', v) :: d' else (k', v') :: vinsert d' k v
  end.

Definition vsetitem (d : vdict) (k : pyval) (v : V) : result vdict :=
  if hashable k then Ok (vinsert d k v) else Raise TypeError.
End ValueDict.

Arguments vdict V : clear implicits.

(** ** The module *)

Definition Song : Type := dict pyval.
Definition PlaylistMap : Type := dict (list Song).

Definition DEFAULT_PROFILE : dict pyval :=
  [ ("name", VStr "Default");
    ("hype_min_energy", VInt 7);
    ("chill_max_energy", VInt 3);
    ("favorite_genre", VStr "rock");
    ("include_mixed", VBool true) ].

Definition normalize_title (title : pyval) : string :=
  match title with
  | VStr s => PyStr.strip s
  | _ => ""
  end.

Definition normalize_artist (artist : string) : string :=
  if negb (truthy (VStr artist)) then ""
  else PyStr.lower (PyStr.strip artist).

Definition normalize_genre (genre : string) : string :=
  PyStr.strip (PyStr.lower genre).

Definition normalize_song (raw : Song) : Song :=
  let title := normalize_title (VStr (py_str (get raw "title" (VStr "")))) in
  let artist := normalize_artist (py_str (get raw "artist" (VStr ""))) in
  let genre := normalize_genre (py_str (get raw "genre" (VStr ""))) in
  let energy := get raw "energy" (VInt 0) in
  let energy :=
    match energy with
    | VStr s => match PyStr.to_int s with
                | Some z => VInt z
                | None => VInt 0
                end
    | _ => energy
    end in
  let tags := get raw "tags" (VList []) in
  let tags :=
    match tags with
    | VStr _ => VList [tags]
    | _ => tags
    end in
  [ ("title", VStr title);
    ("artist", VStr artist);
    ("genre", VStr genre);
    ("energy", energy);
    ("tags", tags) ].

(** [a or b] in a condition: [b] is evaluated only when [a] is false. *)
Definition or_else (a : bool) (b : result bool) : result bool :=
  if a then Ok true else b.

Definition hype_keywords : list string := ["rock"; "punk"; "party"].
Definition chill_keywords : list string := ["lofi"; "ambient"; "sleep"].

Definition classify_song (song : Song) (profile : dict pyval) : result string :=
  let energy := get song "energy" (VInt 0) in
  let genre := get song "genre" (VStr "") in
  let title := get song "title" (VStr "") in
  let hype_min_energy := get profile "hype_min_energy" (VInt 7) in
  let chill_max_energy := get profile "chill_max_energy" (VInt 3) in
  let favorite_genre := get profile "favorite_genre" (VStr "") in
  is_hype_keyword <- any_in hype_keywords genre ;;
  is_chill_keyword <- any_in chill_keywords title ;;
  hype <- or_else (py_eqb genre favorite_genre)
            (ge <- py_ge energy hype_min_energy ;;
             or_else ge (Ok is_hype_keyword)) ;;
  if hype then Ok "Hype"
  else
    chill <- (le <- py_le energy chill_max_energy ;;
              or_else le (Ok is_chill_keyword)) ;;
    if chill then Ok "Chill" else Ok "Mixed".

Definition empty_playlists : PlaylistMap :=
  [("Hype", []); ("Chill", []); ("Mixed", [])].

(** The body of the loop of [build_playlists]. *)
Definition add_song (profile : dict pyval) (playlists : PlaylistMap) (song : Song)
  : result PlaylistMap :=
  let normalized := normalize_song song in
  mood <- classify_song normalized profile ;;
  let normalized := setitem normalized "mood" (VStr mood) in
  bucket <- getitem playlists mood ;;
  Ok (setitem playlists mood (bucket ++ [normalized])).

Definition build_playlists (songs : list Song) (profile : dict pyval)
  : result PlaylistMap :=
  for_each (add_song profile) songs empty_playlists.

(** [set_iter] is the order in which the interpreter iterates over the set
    built from the given keys; it depends on the hashes of the strings. *)
Definition merge_playlists (set_iter : list string -> list string)
  (a b : PlaylistMap) : PlaylistMap :=
  fold_left
    (fun merged key => setitem merged key (get a key [] ++ get b key []))
    (set_iter (keys a ++ keys b)) [].

(** [Counter(elems)]: counts in the order of first occurrence. *)
Definition counter (elems : list string) : dict Z :=
  fold_left (fun counts e => setitem counts e (get counts e 0 + 1)) elems [].

(** [max(items, key=count)]: a later item replaces the current one only
    when its count is strictly greater. *)
Definition max_by_count (first : string * Z) (rest : list (string * Z))
  : string * Z :=
  fold_left (fun best item => if snd best <? snd item then item else best)
    rest first.

(** [counts.most_common(1)] *)
Definition most_common_1 (counts : dict Z) : list (string * Z) :=
  match counts with
  | [] => []
  | first :: rest => [max_by_count first rest]
  end.

Definition artist_names (songs : list Song) : list string :=
  map (fun song => py_str (get song "artist" (VStr "")))
    (filter (fun song => truthy (get song "artist" VNone)) songs).

Definition most_common_artist (songs : list Song) : result (string * Z) :=
  let artists := artist_names songs in
  match artists with
  | [] => Ok ("", 0)
  | _ =>
      match most_common_1 (counter artists) with
      | top :: _ => Ok top
      | [] => Raise IndexError
      end
  end.

Record Stats : Type := {
  total_songs : Z;
  hype_count : Z;
  chill_count : Z;
  mixed_count : Z;
  hype_ratio : Q;
  avg_energy : Q;
  top_artist : string;
  top_artist_count : Z
}.

Definition len {A : Type} (l : list A) : Z := Z.of_nat (List.length l).

Definition is_empty {A : Type} (l : list A) : bool :=
  match l with
  | [] => true
  | _ => false
  end.

Definition compute_playlist_stats (playlists : PlaylistMap) : result Stats :=
  let all_songs := List.concat (values playlists) in
  let hype := get playlists "Hype" [] in
  let chill := get playlists "Chill" [] in
  let mixed := get playlists "Mixed" [] in
  hype_ratio <- (if is_empty all_songs then Ok 0%Q
                 else true_div (len hype) (len all_songs)) ;;
  avg_energy <- (if is_empty all_songs then Ok 0%Q
                 else
                   total <- py_sum (map (fun s => get s "energy" (VInt 0)) hype) ;;
                   true_div total (len all_songs)) ;;
  top <- most_common_artist all_songs ;;
  Ok {| total_songs := len all_songs;
        hype_count := len hype;
        chill_count := len chill;
        mixed_count := len mixed;
        hype_ratio := hype_ratio;
        avg_energy := avg_energy;
        top_artist := fst top;
        top_artist_count := snd top |}.

(** [randbelow n] is the index the random source draws for a sequence of
    length [n]. *)
Definition random_choice_or_none (randbelow : nat -> nat) (songs : list Song)
  : result (option Song) :=
  if is_empty songs then Ok None
  else
    match nth_error songs (randbelow (List.length songs)) with
    | Some song => Ok (Some song)
    | None => Raise IndexError
    end.

Definition lucky_pick (randbelow : nat -> nat) (playlists : PlaylistMap)
  (mode : string) : result (option Song) :=
  let songs_map : dict (list Song) :=
    [ ("hype", get playlists "Hype" []);
      ("chill", get playlists "Chill" []);
      ("any", get playlists "Hype" [] ++ get playlists "Chill" []) ] in
  random_choice_or_none randbelow (get songs_map mode []).

Definition initial_counts : vdict Z :=
  [(VStr "Hype", 0); (VStr "Chill", 0); (VStr "Mixed", 0)].

(** The body of the loop of [history_summary]. *)
Definition count_mood (counts : vdict Z) (song : Song) : result (vdict Z) :=
  let mood := get song "mood" (VStr "Mixed") in
  old <- vget counts mood 0 ;;
  vsetitem counts mood (old + 1).

Definition history_summary (history : list Song) : result (vdict Z) :=
  for_each count_mood history initial_counts.

(** [search_songs(songs, query, field)]; the caller passes "artist" for
    [field] when it wants the default. *)
Definition search_songs (songs : list Song) (query : string) (field : string)
  : list Song :=
  if negb (truthy (VStr query)) then songs
  else
    let q := PyStr.strip (PyStr.lower query) in
    filter
      (fun s => PyStr.contains q (PyStr.lower (py_str (get s field (VStr "")))))
      songs.

Definition _song_key (song : Song) : string * string :=
  (PyStr.lower (normalize_title (VStr (py_str (get song "title" (VStr ""))))),
   PyStr.lower (normalize_artist (py_str (get song "artist" (VStr ""))))).

(** [==] on two pairs of strings. *)
Definition key_eqb (a b : string * string) : bool :=
  (fst a =? fst b)%string && (snd a =? snd b)%string.

Definition contains_song (songs : list Song) (target : Song) : bool :=
  let key := _song_key target in
  existsb (fun s => key_eqb (_song_key s) key) songs.

(** ** The scenario of the specification *)

Definition scenario_songs : list Song :=
  [ [("title", VStr "Go Loud"); ("artist", VStr "The Crows");
     ("genre", VStr "rock"); ("energy", VInt 9)];
    [("title", VStr "lofi dreams"); ("artist", VStr "Soft Bird");
     ("genre", VStr "ambient"); ("energy", VInt 1)] ].

(** ** Notions used to state the properties *)

(** *** The normalizer and the classifier *)

Definition is_text (v : pyval) : bool :=
  match v with
  | VStr _ => true
  | _ => false
  end.

(** The label as a closed formula, for a song and a profile whose fields
    have the types the data model gives them. *)
Definition label_of (g t : string) (e h c : Z) (favorite : pyval) : string :=
  if py_eqb (VStr g) favorite || (h <=? e)
     || existsb (fun k => PyStr.contains k g) hype_keywords
  then "Hype"
  else if (e <=? c) || existsb (fun k => PyStr.contains k t) chill_keywords
       then "Chill"
       else "Mixed".

(** The profile with a field added, at the given value, when it has none. *)
Definition with_default (k : string) (v : pyval) (profile : dict pyval)
  : dict pyval :=
  match lookup profile k with
  | Some _ => profile
  | None => setitem profile k v
  end.

(** The profile with the three fallbacks of the classifier written in. *)
Definition fill_defaults (profile : dict pyval) : dict pyval :=
  with_default "favorite_genre" (VStr "")
    (with_default "chill_max_energy" (VInt 3)
       (with_default "hype_min_energy" (VInt 7) profile)).

(** A value [k in v] accepts on its right. *)
Definition is_container (v : pyval) : bool :=
  match v with
  | VStr _ | VList _ => true
  | _ => false
  end.

(** *** The playlist builder and merging *)

Definition moods : list string := ["Hype"; "Chill"; "Mixed"].

(** A playlist map with the three moods as its keys, in the order the
    builder creates them. *)
Definition three (hype chill mixed : list Song) : PlaylistMap :=
  [("Hype", hype); ("Chill", chill); ("Mixed", mixed)].

(** What the builder does to one raw song: normalize, classify the
    normalized record, attach the label as [mood]. *)
Definition labelled_as (profile : dict pyval) (raw labelled : Song) : Prop :=
  exists mood,
    classify_song (normalize_song raw) profile = Ok mood /\
    labelled = setitem (normalize_song raw) "mood" (VStr mood).

Definition has_mood (mood : string) (song : Song) : bool :=
  py_eqb (get song "mood" VNone) (VStr mood).

(** The songs carrying a mood, in the order of the list. *)
Definition select (mood : string) (songs : list Song) : list Song :=
  filter (has_mood mood) songs.

(** Raw energies the classifier can compare after normalization: none,
    text, an integer or a boolean. *)
Definition raw_energy_ok (raw : Song) : bool :=
  match lookup raw "energy" with
  | None => true
  | Some (VInt _ | VBool _ | VStr _) => true
  | Some _ => false
  end.

(** Profiles whose two thresholds, fallbacks included, are integers. *)
Definition thresholds_ok (profile : dict pyval) : bool :=
  match as_int (get profile "hype_min_energy" (VInt 7)),
        as_int (get profile "chill_max_energy" (VInt 3)) with
  | Some _, Some _ => true
  | _, _ => false
  end.

Definition scenario_extra : PlaylistMap :=
  [("Hype", [[("title", VStr "Encore")]]); ("Live", [[("title", VStr "Set")]])].

(** *** Statistics *)

(** The energy of a song as [sum] reads it: a missing field is 0. *)
Definition int_energy (song : Song) : Z :=
  match as_int (get song "energy" (VInt 0)) with
  | Some z => z
  | None => 0
  end.

Definition energy_is_number (song : Song) : bool :=
  match as_int (get song "energy" (VInt 0)) with
  | Some _ => true
  | None => false
  end.

Definition sum_Z (zs : list Z) : Z := fold_right Z.add 0 zs.

Definition count_step (counts : dict Z) (e : string) : dict Z :=
  setitem counts e (get counts e 0 + 1).

Definition occurrences (l : list string) (x : string) : nat :=
  count_occ string_dec l x.

(** [x] occurs in [l], and [y] does not occur before the first [x]. *)
Definition first_before (l : list string) (x y : string) : Prop :=
  exists pre post, l = pre ++ x :: post /\ ~ In x pre /\ ~ In y pre.

(** The state of the counter after the elements [seen]: one key per
    distinct element, bound to its number of occurrences, and the keys in
    the order in which the elements first occurred. *)
Record counted (seen : list string) (d : dict Z) : Prop := {
  counted_nodup : NoDup (keys d);
  counted_lookup : forall k,
    lookup d k = if (occurrences seen k =? 0)%nat then None
                 else Some (Z.of_nat (occurrences seen k));
  counted_order : forall ks1 x ks2 y,
    keys d = ks1 ++ x :: ks2 -> ~ In y ks1 -> first_before seen x y
}.

(** The average energy stays inside the range of a float: there is no
    song, or the sum of the "Hype" energies over the number of songs is
    below [float_overflow] in magnitude. *)
Definition avg_in_range (p : PlaylistMap) : Prop :=
  List.concat (values p) = [] \/
  Z.abs (sum_Z (map int_energy (get p "Hype" [])))
  < float_overflow * len (List.concat (values p)).

(** [a], counted [n] times, is the most common of [names]: "" and 0 when
    there is no name; otherwise a name that no other outnumbers, and that
    comes first among those occurring as often. *)
Definition most_common_of (names : list string) (a : string) (n : Z) : Prop :=
  (names = [] -> a = "" /\ n = 0) /\
  (names <> [] ->
   In a names /\
   n = Z.of_nat (occurrences names a) /\
   (forall b, (occurrences names b <= occurrences names a)%nat) /\
   (forall b, occurrences names b = occurrences names a ->
              exists pre post,
                names = pre ++ a :: post /\ ~ In a pre /\ ~ In b pre)).

(** The map [build_playlists] returns for one raw song of the favorite
    genre whose [energy] is [None]. *)
Definition scenario_none_energy : PlaylistMap :=
  three [ [("title", VStr ""); ("artist", VStr ""); ("genre", VStr "rock");
           ("energy", VNone); ("tags", VList []); ("mood", VStr "Hype")] ]
        [] [].


(** Energies a float can hold. *)
Definition energy_bounded (song : Song) : bool :=
  Z.abs (int_energy song) <? float_overflow.

(** The statistics of a map, given its most common artist. *)
Definition stats_of (p : PlaylistMap) (top : string * Z) : Stats :=
  let all_songs := List.concat (values p) in
  let hype := get p "Hype" [] in
  {| total_songs := len all_songs;
     hype_count := len hype;
     chill_count := len (get p "Chill" []);
     mixed_count := len (get p "Mixed" []);
     hype_ratio := if is_empty all_songs then 0%Q
                   else (inject_Z (len hype) / inject_Z (len all_songs))%Q;
     avg_energy := if is_empty all_songs then 0%Q
                   else (inject_Z (sum_Z (map int_energy hype))
                         / inject_Z (len all_songs))%Q;
     top_artist := fst top;
     top_artist_count := snd top |}.




Definition scenario_tie : PlaylistMap :=
  three [[("artist", VStr "b")]; [("artist", VStr "a")]]
        [[("artist", VStr "a")]; [("artist", VStr "")]]
        [[("artist", VStr "b")]; [("artist", VStr "c")]].

(** *** The random pick and the history summary *)

(** The pool of a mode, as the specification words it. *)
Definition pool (playlists : PlaylistMap) (mode : string) : list Song :=
  if (mode =? "hype")%string then get playlists "Hype" []
  else if (mode =? "chill")%string then get playlists "Chill" []
  else if (mode =? "any")%string
       then get playlists "Hype" [] ++ get playlists "Chill" []
       else [].

(** Equal keys: a boolean is the integer it stands for. *)
Definition key_norm (v : pyval) : pyval :=
  match v with
  | VBool b => VInt (bool_to_Z b)
  | _ => v
  end.

Definition hashable_keys {V : Type} (d : vdict V) : Prop :=
  Forall (fun entry => hashable (fst entry) = true) d.

(** The mood a song is counted under. *)
Definition mood_of (song : Song) : pyval := get song "mood" (VStr "Mixed").

(** The number of songs of the history counted under [v]. *)
Definition tally (history : list Song) (v : pyval) : Z :=
  len (filter (fun song => py_eqb (mood_of song) v) history).

Definition is_preset (v : pyval) : bool :=
  py_eqb (VStr "Hype") v || py_eqb (VStr "Chill") v || py_eqb (VStr "Mixed") v.

(** What a summary of [history] holds under the key [v]. *)
Definition summary_entry (history : list Song) (v : pyval) : option Z :=
  if is_preset v || (0 <? tally history v) then Some (tally history v) else None.

Record summarized (seen : list Song) (counts : vdict Z) : Prop := {
  summarized_keys : hashable_keys counts;
  summarized_lookup : forall v,
    hashable v = true -> vlookup counts v = summary_entry seen v
}.

Definition scenario_history : list Song :=
  [[("mood", VStr "Hype")]; [("mood", VStr "Party")]; []; [("mood", VStr "Party")]].

(** *** Searching, looking up, numbers as text *)

Definition field_matches (query field : string) (song : Song) : bool :=
  PyStr.contains (PyStr.strip (PyStr.lower query))
    (PyStr.lower (py_str (get song field (VStr "")))).

(** The comparison key without the normalizers: the stringified title and
    artist, trimmed and lower-cased. *)
Definition plain_key (song : Song) : string * string :=
  (PyStr.lower (PyStr.strip (py_str (get song "title" (VStr "")))),
   PyStr.lower (PyStr.strip (py_str (get song "artist" (VStr ""))))).

Fixpoint digits_only (s : string) : bool :=
  match s with
  | EmptyString => true
  | String c s' => PyStr.is_digit c && digits_only s'
  end.

(** The playlists [build_playlists] makes of the scenario. *)
Definition scenario_built : PlaylistMap :=
  [ ("Hype", [ [("title", VStr "Go Loud"); ("artist", VStr "the crows");
                ("genre", VStr "rock"); ("energy", VInt 9);
                ("tags", VList []); ("mood", VStr "Hype")] ]);
    ("Chill", [ [("title", VStr "lofi dreams"); ("artist", VStr "soft bird");
                 ("genre", VStr "ambient"); ("energy", VInt 1);
                 ("tags", VList []); ("mood", VStr "Chill")] ]);
    ("Mixed", []) ].

(** * Properties *)

(** ** Runs of the model *)

Example to_int_examples :
  map PyStr.to_int [" 42 "; "+7"; "-1_2"; "007"; ""; "1__0"; "_1"; "1_"; "3.5"; "+ 7"]
  = [Some 42; Some 7; Some (-12); Some 7; None; None; None; None; None; None].
Proof. reflexivity. Qed.

Example py_str_examples :
  map py_str [VNone; VBool true; VInt (-12); VStr " Go "; VList [VInt 1; VStr "a'b"; VList []]]
  = ["None"; "True"; "-12"; " Go ";
     ("[1, " ++ String PyStr.dquote ("a'b" ++ String PyStr.dquote ", []]"))%string].
Proof. reflexivity. Qed.

Example scenario_build :
  build_playlists scenario_songs DEFAULT_PROFILE
  = Ok [ ("Hype", [ [("title", VStr "Go Loud"); ("artist", VStr "the crows");
                     ("genre", VStr "rock"); ("energy", VInt 9);
                     ("tags", VList []); ("mood", VStr "Hype")] ]);
         ("Chill", [ [("title", VStr "lofi dreams"); ("artist", VStr "soft bird");
                      ("genre", VStr "ambient"); ("energy", VInt 1);
                      ("tags", VList []); ("mood", VStr "Chill")] ]);
         ("Mixed", []) ].
Proof. reflexivity. Qed.

Example scenario_stats :
  (p <- build_playlists scenario_songs DEFAULT_PROFILE ;;
   st <- compute_playlist_stats p ;;
   Ok (total_songs st, hype_count st, chill_count st, mixed_count st,
       Qred (hype_ratio st), Qred (avg_energy st),
       top_artist st, top_artist_count st))
  = Ok (2, 1, 1, 0, (1 # 2)%Q, (9 # 2)%Q, "the crows", 1).
Proof. reflexivity. Qed.

(** ** Strings *)

Module PyStrFacts.
Import PyStr.

Ltac each_char c :=
  destruct c as [b0 b1 b2 b3 b4 b5 b6 b7];
  destruct b0, b1, b2, b3, b4, b5, b6, b7; vm_compute; try reflexivity;
  try discriminate.

Lemma is_upper_lower_char (c : ascii) : is_upper (lower_char c) = false.
Proof. each_char c. Qed.

Lemma is_space_lower_char (c : ascii) : is_space (lower_char c) = is_space c.
Proof. each_char c. Qed.

Lemma has_upper_lower (s : string) : has_upper (lower s) = false.
Proof.
  induction s as [|c s IH]; simpl; [reflexivity|].
  now rewrite is_upper_lower_char, IH.
Qed.

Lemma lower_fixed (s : string) : has_upper s = false -> lower s = s.
Proof.
  induction s as [|c s IH]; simpl; intros H; [reflexivity|].
  apply orb_false_iff in H as [Hc Hs].
  unfold lower_char. now rewrite Hc, IH.
Qed.

Lemma lower_idempotent (s : string) : lower (lower s) = lower s.
Proof. apply lower_fixed, has_upper_lower. Qed.

Lemma lower_lstrip (s : string) : lower (lstrip s) = lstrip (lower s).
Proof.
  induction s as [|c s IH]; simpl; [reflexivity|].
  rewrite is_space_lower_char. now destruct (is_space c).
Qed.

Lemma lower_rstrip (s : string) : lower (rstrip s) = rstrip (lower s).
Proof.
  induction s as [|c s IH]; simpl; [reflexivity|].
  rewrite <- IH, is_space_lower_char.
  destruct (rstrip s); simpl; [now destruct (is_space c)|reflexivity].
Qed.

Lemma lower_strip (s : string) : lower (strip s) = strip (lower s).
Proof. unfold strip. now rewrite lower_lstrip, lower_rstrip. Qed.

Lemma lstrip_start (s : string) : starts_with_space (lstrip s) = false.
Proof.
  induction s as [|c s IH]; simpl; [reflexivity|].
  destruct (is_space c) eqn:E; [exact IH|simpl; exact E].
Qed.

Lemma rstrip_end (s : string) : ends_with_space (rstrip s) = false.
Proof.
  induction s as [|c s IH]; simpl; [reflexivity|].
  destruct (rstrip s) as [|d r] eqn:E.
  - destruct (is_space c) eqn:Ec; simpl; [reflexivity|exact Ec].
  - exact IH.
Qed.

Lemma lstrip_end (s : string) :
  ends_with_space s = false -> ends_with_space (lstrip s) = false.
Proof.
  induction s as [|c s IH]; intros H; [reflexivity|].
  cbn [lstrip]. destruct (is_space c) eqn:Ec; [|exact H].
  destruct s as [|d s']; [reflexivity|]. apply IH. exact H.
Qed.

Lemma lstrip_fixed (s : string) : starts_with_space s = false -> lstrip s = s.
Proof. destruct s as [|c s]; simpl; intros H; [reflexivity|now rewrite H]. Qed.

Lemma rstrip_fixed (s : string) : ends_with_space s = false -> rstrip s = s.
Proof.
  induction s as [|c s IH]; intros H; [reflexivity|].
  destruct s as [|d s'].
  - simpl in *. now rewrite H.
  - change (ends_with_space (String d s') = false) in H.
    change (rstrip (String c (String d s')))
      with (match rstrip (String d s') with
            | EmptyString => if is_space c then EmptyString else String c EmptyString
            | r => String c r
            end).
    now rewrite (IH H).
Qed.

Lemma strip_start (s : string) : starts_with_space (strip s) = false.
Proof. apply lstrip_start. Qed.

Lemma strip_end (s : string) : ends_with_space (strip s) = false.
Proof. apply lstrip_end, rstrip_end. Qed.

Lemma strip_fixed (s : string) :
  starts_with_space s = false -> ends_with_space s = false -> strip s = s.
Proof.
  intros Hs He. unfold strip. rewrite (rstrip_fixed s He). now apply lstrip_fixed.
Qed.

Lemma strip_idempotent (s : string) : strip (strip s) = strip s.
Proof. apply strip_fixed; [apply strip_start|apply strip_end]. Qed.

Lemma strip_lower_fixed (s : string) :
  lower (strip (lower s)) = strip (lower s).
Proof. now rewrite lower_strip, lower_idempotent. Qed.

(** [contains] is the substring relation. *)
Lemma prefix_spec (k s : string) :
  prefix k s = true <-> exists post, s = (k ++ post)%string.
Proof.
  revert s. induction k as [|a k IH]; intros s; simpl.
  - destruct s; split; eauto.
  - destruct s as [|b s]; simpl.
    + split; [discriminate|intros [post H]; discriminate].
    + destruct (ascii_dec a b) as [->|Hab].
      * rewrite IH. split; intros [post H]; exists post; congruence.
      * split; [discriminate|intros [post H]; congruence].
Qed.

Lemma contains_spec (k s : string) :
  contains k s = true <-> exists pre post, s = (pre ++ k ++ post)%string.
Proof.
  induction s as [|c s IH]; cbn [contains].
  - rewrite orb_false_r, prefix_spec. split.
    + intros [post H]. now exists EmptyString, post.
    + intros [pre [post H]]. destruct pre; simpl in H; [eauto|discriminate].
  - rewrite orb_true_iff, IH, prefix_spec. split.
    + intros [[post H]|[pre [post H]]].
      * now exists EmptyString, post.
      * exists (String c pre), post. simpl. congruence.
    + intros [pre [post H]]. destruct pre as [|d pre]; simpl in H.
      * left. eauto.
      * right. exists pre, post. congruence.
Qed.

End PyStrFacts.

(** ** Dictionaries *)

Section DictFacts.
Context {V : Type}.
Implicit Types (d : dict V) (k : string) (v : V).

Lemma lookup_setitem d k v k' :
  lookup (setitem d k v) k' = if (k =? k')%string then Some v else lookup d k'.
Proof.
  induction d as [|[k0 v0] d IH]; simpl.
  - reflexivity.
  - destruct (String.eqb_spec k0 k) as [->|Hk]; simpl.
    + now destruct (k =? k')%string.
    + rewrite IH. destruct (String.eqb_spec k0 k') as [->|Hk'].
      * destruct (String.eqb_spec k k'); congruence.
      * reflexivity.
Qed.

Lemma lookup_None d k : lookup d k = None <-> ~ In k (keys d).
Proof.
  induction d as [|[k0 v0] d IH]; simpl.
  - tauto.
  - destruct (String.eqb_spec k0 k) as [->|Hk].
    + split; [discriminate|tauto].
    + rewrite IH. tauto.
Qed.

Lemma lookup_Some_In d k : lookup d k <> None <-> In k (keys d).
Proof.
  rewrite lookup_None. destruct (in_dec string_dec k (keys d)); tauto.
Qed.

Lemma get_setitem d k v k' default :
  get (setitem d k v) k' default = if (k =? k')%string then v else get d k' default.
Proof. unfold get. rewrite lookup_setitem. now destruct (k =? k')%string. Qed.
End DictFacts.

(** ** The normalizer *)

Lemma normalize_artist_eq (x : string) :
  normalize_artist x = PyStr.lower (PyStr.strip x).
Proof. unfold normalize_artist. now destruct x. Qed.

(** C4, the claim as stated fails: a raw [energy] of [None] is neither
    missing nor text, so [normalize_song] hands it on as it is, and the
    normalized record's [energy] is [None], not an integer. *)
Lemma normalize_song_energy_none :
  lookup (normalize_song [("energy", VNone)]) "energy" = Some VNone.
Proof. reflexivity. Qed.

(** C4, amended: [normalize_song] returns a record with exactly the five
    fields [title], [artist], [genre], [energy], [tags].  Its [energy] is
    never text: it is 0 when the raw record has none, the parsed integer
    when the raw value is text that [int] accepts, 0 when it is text that
    [int] rejects, and the raw value itself, unchanged, in every other
    case.  Its [artist] and [genre] are the stringified raw values
    lower-cased and trimmed (no upper-case letter, no white space at either
    end), and its [title] is the stringified raw value trimmed, with the
    case kept. *)
Theorem normalize_song_invariant (raw : Song) :
  let n := normalize_song raw in
  keys n = ["title"; "artist"; "genre"; "energy"; "tags"] /\
  (exists e,
      lookup n "energy" = Some e /\ is_text e = false /\
      e = match lookup raw "energy" with
          | None => VInt 0
          | Some (VStr s) =>
              VInt match PyStr.to_int s with Some z => z | None => 0 end
          | Some v => v
          end) /\
  (exists a,
      lookup n "artist" = Some (VStr a) /\
      a = PyStr.lower (PyStr.strip (py_str (get raw "artist" (VStr "")))) /\
      PyStr.has_upper a = false /\ PyStr.lower a = a /\
      PyStr.starts_with_space a = false /\ PyStr.ends_with_space a = false /\
      PyStr.strip a = a) /\
  (exists g,
      lookup n "genre" = Some (VStr g) /\
      g = PyStr.lower (PyStr.strip (py_str (get raw "genre" (VStr "")))) /\
      PyStr.has_upper g = false /\ PyStr.lower g = g /\
      PyStr.starts_with_space g = false /\ PyStr.ends_with_space g = false /\
      PyStr.strip g = g) /\
  (exists t,
      lookup n "title" = Some (VStr t) /\
      t = PyStr.strip (py_str (get raw "title" (VStr ""))) /\
      PyStr.starts_with_space t = false /\ PyStr.ends_with_space t = false /\
      PyStr.strip t = t).
Proof.
  cbv zeta. unfold normalize_song. cbn [keys map fst lookup String.eqb Ascii.eqb Bool.eqb].
  split; [reflexivity|]. split; [|split; [|split]].
  - eexists. split; [reflexivity|]. unfold get.
    destruct (lookup raw "energy") as [[]|]; simpl; try (split; reflexivity).
    destruct (PyStr.to_int s); split; reflexivity.
  - eexists. split; [reflexivity|]. rewrite normalize_artist_eq.
    set (x := py_str _).
    assert (Hu : PyStr.has_upper (PyStr.lower (PyStr.strip x)) = false)
      by apply PyStrFacts.has_upper_lower.
    assert (Hs : PyStr.lower (PyStr.strip x) = PyStr.strip (PyStr.lower x))
      by apply PyStrFacts.lower_strip.
    repeat split.
    + exact Hu.
    + now apply PyStrFacts.lower_fixed.
    + rewrite Hs. apply PyStrFacts.strip_start.
    + rewrite Hs. apply PyStrFacts.strip_end.
    + rewrite Hs. apply PyStrFacts.strip_idempotent.
  - eexists. split; [reflexivity|]. unfold normalize_genre.
    set (x := py_str _).
    assert (Hs : PyStr.strip (PyStr.lower x) = PyStr.lower (PyStr.strip x))
      by (symmetry; apply PyStrFacts.lower_strip).
    repeat split.
    + exact Hs.
    + rewrite Hs. apply PyStrFacts.has_upper_lower.
    + apply PyStrFacts.strip_lower_fixed.
    + apply PyStrFacts.strip_start.
    + apply PyStrFacts.strip_end.
    + apply PyStrFacts.strip_idempotent.
  - eexists. split; [reflexivity|]. unfold normalize_title.
    repeat split.
    + apply PyStrFacts.strip_start.
    + apply PyStrFacts.strip_end.
    + apply PyStrFacts.strip_idempotent.
Qed.

Example normalize_song_example :
  normalize_song [("title", VStr "  Go Loud "); ("artist", VStr " The CROWS");
                  ("genre", VInt 7); ("energy", VStr " 1_0 "); ("tags", VStr "live")]
  = [("title", VStr "Go Loud"); ("artist", VStr "the crows"); ("genre", VStr "7");
     ("energy", VInt 10); ("tags", VList [VStr "live"])].
Proof. reflexivity. Qed.

(** ** The classifier *)

Lemma any_in_text (keywords : list string) (s : string) :
  any_in keywords (VStr s) = Ok (existsb (fun k => PyStr.contains k s) keywords).
Proof.
  induction keywords as [|k rest IH]; simpl; [reflexivity|].
  destruct (PyStr.contains k s); [reflexivity|exact IH].
Qed.

Lemma any_in_spec (keywords : list string) (s : string) :
  existsb (fun k => PyStr.contains k s) keywords = true <->
  exists k, In k keywords /\ exists pre post, s = (pre ++ k ++ post)%string.
Proof.
  rewrite existsb_exists.
  split; intros [k [Hin H]]; exists k; split; trivial;
    now apply PyStrFacts.contains_spec.
Qed.

Lemma py_eqb_text (g : string) (v : pyval) :
  py_eqb (VStr g) v = true <-> v = VStr g.
Proof.
  destruct v; simpl; try (split; [discriminate|intros H; discriminate H]).
  rewrite String.eqb_eq. split; intros H; [now subst|now injection H].
Qed.

Lemma py_ge_numbers (a b : pyval) (x y : Z) :
  as_int a = Some x -> as_int b = Some y -> py_ge a b = Ok (y <=? x).
Proof.
  intros Ha Hb. unfold py_ge.
  assert (E : forall test, py_order test a b = Ok (test (x ?= y))).
  { intros test.
    destruct a, b; simpl in *; try discriminate;
      injection Ha as <-; injection Hb as <-; reflexivity. }
  rewrite E. f_equal.
  destruct (Z.compare_spec x y), (Z.leb_spec y x); try reflexivity; lia.
Qed.

Lemma py_le_numbers (a b : pyval) (x y : Z) :
  as_int a = Some x -> as_int b = Some y -> py_le a b = Ok (x <=? y).
Proof.
  intros Ha Hb. unfold py_le.
  assert (E : forall test, py_order test a b = Ok (test (x ?= y))).
  { intros test.
    destruct a, b; simpl in *; try discriminate;
      injection Ha as <-; injection Hb as <-; reflexivity. }
  rewrite E. reflexivity.
Qed.

Lemma classify_song_typed (song : Song) (profile : dict pyval)
  (g t : string) (e h c : Z) :
  get song "genre" (VStr "") = VStr g ->
  get song "title" (VStr "") = VStr t ->
  as_int (get song "energy" (VInt 0)) = Some e ->
  as_int (get profile "hype_min_energy" (VInt 7)) = Some h ->
  as_int (get profile "chill_max_energy" (VInt 3)) = Some c ->
  classify_song song profile
  = Ok (label_of g t e h c (get profile "favorite_genre" (VStr ""))).
Proof.
  intros Hg Ht He Hh Hc. unfold classify_song, label_of.
  rewrite Hg, Ht, !any_in_text.
  rewrite (py_ge_numbers _ _ _ _ He Hh), (py_le_numbers _ _ _ _ He Hc).
  cbn [bind or_else].
  destruct (py_eqb (VStr g) _); cbn [orb or_else bind]; [reflexivity|].
  destruct (h <=? e); cbn [orb or_else bind]; [reflexivity|].
  destruct (existsb _ hype_keywords); cbn [orb or_else bind]; [reflexivity|].
  destruct (e <=? c); cbn [orb or_else bind]; [reflexivity|].
  now destruct (existsb _ chill_keywords).
Qed.

(** C3, the claim as stated fails: [normalize_song] hands on an [energy]
    of [None], and on such a song the comparison with the Hype threshold
    raises [TypeError].  The first song meets no Hype and no Chill
    condition, so the claim gives it "Mixed"; the genre of the second
    contains "punk", so the claim gives it "Hype"; the classifier labels
    neither. *)
Lemma classify_song_not_returned :
  classify_song (normalize_song [("energy", VNone)]) DEFAULT_PROFILE
  = Raise TypeError /\
  classify_song (normalize_song [("genre", VStr "punk"); ("energy", VNone)])
    DEFAULT_PROFILE
  = Raise TypeError.
Proof. split; reflexivity. Qed.

(** C3, amended: for a song whose genre and title are strings and whose
    energy is an integer (or a boolean, or absent), and a profile whose two
    thresholds are integers (absent fields taking their fallback),
    [classify_song] returns a label, and
    that label is "Hype" exactly when the genre equals the favorite genre,
    or the energy is at least [hype_min_energy], or the genre contains
    "rock", "punk" or "party"; otherwise "Chill" exactly when the energy
    is at most [chill_max_energy] or the title contains "lofi", "ambient"
    or "sleep"; otherwise "Mixed".  A song meeting both a Hype and a Chill
    condition is "Hype". *)
Theorem classify_song_decision (song : Song) (profile : dict pyval)
  (g t : string) (e h c : Z)
  (Hgenre : get song "genre" (VStr "") = VStr g)
  (Htitle : get song "title" (VStr "") = VStr t)
  (Henergy : as_int (get song "energy" (VInt 0)) = Some e)
  (Hhype : as_int (get profile "hype_min_energy" (VInt 7)) = Some h)
  (Hchill : as_int (get profile "chill_max_energy" (VInt 3)) = Some c) :
  let hype :=
    get profile "favorite_genre" (VStr "") = VStr g \/ h <= e \/
    exists k, In k ["rock"; "punk"; "party"] /\
              exists pre post, g = (pre ++ k ++ post)%string in
  let chill :=
    e <= c \/
    exists k, In k ["lofi"; "ambient"; "sleep"] /\
              exists pre post, t = (pre ++ k ++ post)%string in
  exists mood,
    classify_song song profile = Ok mood /\
    (mood = "Hype" <-> hype) /\
    (mood = "Chill" <-> ~ hype /\ chill) /\
    (mood = "Mixed" <-> ~ hype /\ ~ chill) /\
    (hype /\ chill -> mood = "Hype").
Proof.
  intros hype chill.
  rewrite (classify_song_typed song profile g t e h c) by assumption.
  eexists. split; [reflexivity|].
  assert (Hh : py_eqb (VStr g) (get profile "favorite_genre" (VStr ""))
               || (h <=? e)
               || existsb (fun k => PyStr.contains k g) hype_keywords = true
               <-> hype).
  { unfold hype. rewrite !orb_true_iff, py_eqb_text, Z.leb_le, any_in_spec.
    unfold hype_keywords. tauto. }
  assert (Hc : (e <=? c) || existsb (fun k => PyStr.contains k t) chill_keywords
               = true <-> chill).
  { unfold chill. rewrite orb_true_iff, Z.leb_le, any_in_spec.
    unfold chill_keywords. tauto. }
  unfold label_of.
  destruct (py_eqb (VStr g) _ || (h <=? e) || existsb _ hype_keywords).
  - assert (hype) by now apply Hh.
    repeat split; try tauto; try discriminate; intros; tauto.
  - assert (~ hype) by (intros X; apply Hh in X; discriminate).
    destruct ((e <=? c) || existsb _ chill_keywords).
    + assert (chill) by now apply Hc.
      repeat split; try tauto; try discriminate; intros; tauto.
    + assert (~ chill) by (intros X; apply Hc in X; discriminate).
      repeat split; try tauto; try discriminate; intros; tauto.
Qed.

Lemma classify_song_decision_witness :
  exists mood,
    classify_song
      [("title", VStr "lofi dreams"); ("genre", VStr "punk rock"); ("energy", VInt 1)]
      DEFAULT_PROFILE = Ok mood /\ mood = "Hype".
Proof.
  destruct (classify_song_decision
              [("title", VStr "lofi dreams"); ("genre", VStr "punk rock");
               ("energy", VInt 1)]
              DEFAULT_PROFILE "punk rock" "lofi dreams" 1 7 3
              eq_refl eq_refl eq_refl eq_refl eq_refl)
    as [mood [Hrun [_ [_ [_ Hboth]]]]].
  exists mood. split; [exact Hrun|].
  apply Hboth. split.
  - right. right. exists "rock". split; [simpl; tauto|].
    exists "punk ", "". reflexivity.
  - left. lia.
Defined.

Lemma get_with_default_same (k : string) (v : pyval) (profile : dict pyval) :
  get (with_default k v profile) k v = get profile k v.
Proof.
  unfold with_default, get.
  destruct (lookup profile k) eqn:E; [now rewrite E|].
  now rewrite lookup_setitem, String.eqb_refl.
Qed.

Lemma get_with_default_other (k k' : string) (v d : pyval) (profile : dict pyval) :
  k <> k' -> get (with_default k v profile) k' d = get profile k' d.
Proof.
  intros Hk. unfold with_default.
  destruct (lookup profile k); [reflexivity|].
  rewrite get_setitem. now destruct (String.eqb_spec k k').
Qed.

Lemma lookup_with_default (k : string) (v : pyval) (profile : dict pyval) :
  lookup (with_default k v profile) k
  = Some match lookup profile k with Some x => x | None => v end.
Proof.
  unfold with_default.
  destruct (lookup profile k) eqn:E; [exact E|].
  now rewrite lookup_setitem, String.eqb_refl.
Qed.

(** C5: [classify_song] gives the same result, label or exception, on a
    profile and on that profile with each field it lacks written in at its
    fallback: [hype_min_energy] 7, [chill_max_energy] 3, [favorite_genre]
    the empty string.  The filled profile has all three fields, and keeps
    the value of each field the profile had. *)
Theorem classify_song_profile_defaults (song : Song) (profile : dict pyval) :
  classify_song song profile = classify_song song (fill_defaults profile) /\
  lookup (fill_defaults profile) "hype_min_energy"
  = Some match lookup profile "hype_min_energy" with
         | Some v => v
         | None => VInt 7
         end /\
  lookup (fill_defaults profile) "chill_max_energy"
  = Some match lookup profile "chill_max_energy" with
         | Some v => v
         | None => VInt 3
         end /\
  lookup (fill_defaults profile) "favorite_genre"
  = Some match lookup profile "favorite_genre" with
         | Some v => v
         | None => VStr ""
         end.
Proof.
  assert (Hh : get (fill_defaults profile) "hype_min_energy" (VInt 7)
               = get profile "hype_min_energy" (VInt 7)).
  { unfold fill_defaults.
    rewrite !get_with_default_other by discriminate.
    apply get_with_default_same. }
  assert (Hc : get (fill_defaults profile) "chill_max_energy" (VInt 3)
               = get profile "chill_max_energy" (VInt 3)).
  { unfold fill_defaults.
    rewrite get_with_default_other by discriminate.
    rewrite get_with_default_same.
    now rewrite get_with_default_other by discriminate. }
  assert (Hf : get (fill_defaults profile) "favorite_genre" (VStr "")
               = get profile "favorite_genre" (VStr "")).
  { unfold fill_defaults.
    rewrite get_with_default_same.
    now rewrite !get_with_default_other by discriminate. }
  split; [|split; [|split]].
  - unfold classify_song. now rewrite Hh, Hc, Hf.
  - unfold fill_defaults.
    assert (E : forall k d p, k <> "hype_min_energy" ->
                lookup (with_default k d p) "hype_min_energy"
                = lookup p "hype_min_energy").
    { intros k d p Hk. unfold with_default.
      destruct (lookup p k); [reflexivity|].
      rewrite lookup_setitem. now destruct (String.eqb_spec k "hype_min_energy"). }
    rewrite !E by discriminate. apply lookup_with_default.
  - unfold fill_defaults.
    assert (E : forall k d p, k <> "chill_max_energy" ->
                lookup (with_default k d p) "chill_max_energy"
                = lookup p "chill_max_energy").
    { intros k d p Hk. unfold with_default.
      destruct (lookup p k); [reflexivity|].
      rewrite lookup_setitem. now destruct (String.eqb_spec k "chill_max_energy"). }
    rewrite E by discriminate. rewrite lookup_with_default.
    now rewrite E by discriminate.
  - unfold fill_defaults. rewrite lookup_with_default.
    assert (E : forall k d p, k <> "favorite_genre" ->
                lookup (with_default k d p) "favorite_genre"
                = lookup p "favorite_genre").
    { intros k d p Hk. unfold with_default.
      destruct (lookup p k); [reflexivity|].
      rewrite lookup_setitem. now destruct (String.eqb_spec k "favorite_genre"). }
    now rewrite !E by discriminate.
Qed.

Example fill_defaults_example :
  fill_defaults [("name", VStr "Night"); ("chill_max_energy", VInt 5)]
  = [("name", VStr "Night"); ("chill_max_energy", VInt 5);
     ("hype_min_energy", VInt 7); ("favorite_genre", VStr "")].
Proof. reflexivity. Qed.

Lemma any_in_container (keywords : list string) (v : pyval) :
  is_container v = true -> exists b, any_in keywords v = Ok b.
Proof.
  intros Hv. induction keywords as [|k rest [b IH]]; simpl; [eauto|].
  destruct v; try discriminate; simpl;
    match goal with |- context [if ?c then _ else _] => destruct c end; eauto.
Qed.

(** C10: a song whose genre is the empty string is labelled "Hype" under
    every profile that has no [favorite_genre] field, whatever its energy
    (an energy that cannot be compared is never looked at).  The title is
    taken to be absent or a value the keyword test accepts: a string, as in
    every song record, or a list. *)
Theorem classify_song_empty_genre (song : Song) (profile : dict pyval)
  (Hgenre : lookup song "genre" = Some (VStr ""))
  (Hfavorite : lookup profile "favorite_genre" = None)
  (Htitle : is_container (get song "title" (VStr "")) = true) :
  classify_song song profile = Ok "Hype".
Proof.
  unfold classify_song.
  assert (Hg : get song "genre" (VStr "") = VStr "") by (unfold get; now rewrite Hgenre).
  assert (Hf : get profile "favorite_genre" (VStr "") = VStr "")
    by (unfold get; now rewrite Hfavorite).
  rewrite Hg, Hf.
  destruct (any_in_container chill_keywords _ Htitle) as [b ->].
  reflexivity.
Qed.

Lemma classify_song_empty_genre_witness :
  classify_song [("title", VStr "sleep"); ("genre", VStr ""); ("energy", VNone)]
    [("hype_min_energy", VInt 7)] = Ok "Hype".
Proof.
  apply (classify_song_empty_genre
           [("title", VStr "sleep"); ("genre", VStr ""); ("energy", VNone)]
           [("hype_min_energy", VInt 7)]); reflexivity.
Defined.

(** ** The playlist builder *)

Lemma classify_song_mood (song : Song) (profile : dict pyval) (mood : string) :
  classify_song song profile = Ok mood -> In mood moods.
Proof.
  unfold classify_song. intros H.
  destruct (any_in hype_keywords _) as [hk|]; [|discriminate].
  destruct (any_in chill_keywords _) as [ck|]; [|discriminate].
  cbn [bind] in H.
  destruct (or_else _ _) as [[]|]; cbn [bind] in H; [| |discriminate].
  - injection H as <-. simpl. tauto.
  - destruct (py_le _ _) as [[]|]; cbn [bind or_else] in H; [| |discriminate].
    + injection H as <-. simpl. tauto.
    + destruct ck; injection H as <-; simpl; tauto.
Qed.

Lemma has_mood_labelled (song : Song) (mood m : string) :
  has_mood m (setitem song "mood" (VStr mood)) = (mood =? m)%string.
Proof. unfold has_mood. now rewrite get_setitem. Qed.

Lemma add_song_three (profile : dict pyval) (hype chill mixed : list Song)
  (raw labelled : Song) :
  labelled_as profile raw labelled ->
  add_song profile (three hype chill mixed) raw
  = Ok (three (hype ++ select "Hype" [labelled])
              (chill ++ select "Chill" [labelled])
              (mixed ++ select "Mixed" [labelled])).
Proof.
  intros [mood [Hrun ->]]. unfold add_song. rewrite Hrun. cbn [bind].
  unfold select. cbn [filter]. rewrite !has_mood_labelled.
  destruct (classify_song_mood _ _ _ Hrun) as [<-|[<-|[<-|[]]]];
    cbn; now rewrite !app_nil_r.
Qed.

Lemma build_from_three (profile : dict pyval) (songs labelled : list Song) :
  Forall2 (labelled_as profile) songs labelled ->
  forall hype chill mixed,
    for_each (add_song profile) songs (three hype chill mixed)
    = Ok (three (hype ++ select "Hype" labelled)
                (chill ++ select "Chill" labelled)
                (mixed ++ select "Mixed" labelled)).
Proof.
  induction 1 as [|raw s songs labelled Hs _ IH]; intros hype chill mixed.
  - cbn. now rewrite !app_nil_r.
  - cbn [for_each]. rewrite (add_song_three _ _ _ _ _ _ Hs). cbn [bind].
    rewrite IH. unfold select. cbn [filter].
    destruct (has_mood "Hype" s), (has_mood "Chill" s), (has_mood "Mixed" s);
      now rewrite <- ?app_assoc.
Qed.

Lemma build_playlists_labelled (profile : dict pyval) (songs labelled : list Song) :
  Forall2 (labelled_as profile) songs labelled ->
  build_playlists songs profile
  = Ok (three (select "Hype" labelled) (select "Chill" labelled)
              (select "Mixed" labelled)).
Proof.
  intros H. unfold build_playlists.
  exact (build_from_three profile songs labelled H [] [] []).
Qed.

Lemma normalized_energy_int (raw : Song) :
  raw_energy_ok raw = true ->
  exists e, as_int (get (normalize_song raw) "energy" (VInt 0)) = Some e.
Proof.
  unfold raw_energy_ok, normalize_song, get at 1. cbn [lookup String.eqb Ascii.eqb Bool.eqb].
  unfold get. destruct (lookup raw "energy") as [[]|]; try discriminate; intros _.
  - simpl. eauto.
  - simpl. eauto.
  - destruct (PyStr.to_int s); simpl; eauto.
  - simpl. eauto.
Qed.

Lemma classify_normalized (profile : dict pyval) (raw : Song) :
  thresholds_ok profile = true -> raw_energy_ok raw = true ->
  exists mood, classify_song (normalize_song raw) profile = Ok mood.
Proof.
  unfold thresholds_ok. intros Hp Hr.
  destruct (as_int (get profile "hype_min_energy" (VInt 7))) as [h|] eqn:Hh;
    [|discriminate].
  destruct (as_int (get profile "chill_max_energy" (VInt 3))) as [c|] eqn:Hc;
    [|discriminate].
  destruct (normalized_energy_int raw Hr) as [e He].
  eexists.
  eapply classify_song_typed;
    [reflexivity|reflexivity|exact He|exact Hh|exact Hc].
Qed.

Lemma label_all (profile : dict pyval) (songs : list Song) :
  thresholds_ok profile = true ->
  Forall (fun raw => raw_energy_ok raw = true) songs ->
  exists labelled, Forall2 (labelled_as profile) songs labelled.
Proof.
  intros Hp. induction 1 as [|raw songs Hr _ [labelled IH]].
  - exists []. constructor.
  - destruct (classify_normalized profile raw Hp Hr) as [mood Hm].
    exists (setitem (normalize_song raw) "mood" (VStr mood) :: labelled).
    constructor; [now exists mood|exact IH].
Qed.

Lemma labelled_has_mood (profile : dict pyval) (raw s : Song) :
  labelled_as profile raw s ->
  has_mood "Hype" s || has_mood "Chill" s || has_mood "Mixed" s = true.
Proof.
  intros [mood [Hrun ->]]. rewrite !has_mood_labelled.
  destruct (classify_song_mood _ _ _ Hrun) as [<-|[<-|[<-|[]]]]; reflexivity.
Qed.

(** C6, the claim as stated fails: a raw [energy] of [None] passes through
    the normalizer, and comparing it with the threshold raises, so
    [build_playlists] returns no map. *)
Lemma build_playlists_raises :
  build_playlists [[("energy", VNone)]] DEFAULT_PROFILE = Raise TypeError.
Proof. reflexivity. Qed.

(** C6, amended: on the empty list [build_playlists] returns the three
    keys "Hype", "Chill", "Mixed" with empty sequences, for every profile.
    For a profile whose two thresholds are integers (or absent) and raw
    songs whose [energy] is absent, text, an integer or a boolean, it
    returns a map with exactly these three keys, in which the sequence of a
    mood holds, in input order, the songs of that mood, each input song
    having been normalized, classified on the normalized record and given
    the label as its [mood] field; every song lands in one of the three. *)
Theorem build_playlists_groups (songs : list Song) (profile : dict pyval) :
  build_playlists [] profile = Ok [("Hype", []); ("Chill", []); ("Mixed", [])] /\
  (thresholds_ok profile = true ->
   Forall (fun raw => raw_energy_ok raw = true) songs ->
   exists labelled,
     Forall2 (labelled_as profile) songs labelled /\
     Forall (fun s => has_mood "Hype" s || has_mood "Chill" s
                      || has_mood "Mixed" s = true) labelled /\
     build_playlists songs profile
     = Ok [("Hype", select "Hype" labelled);
           ("Chill", select "Chill" labelled);
           ("Mixed", select "Mixed" labelled)]).
Proof.
  split; [reflexivity|]. intros Hp Hs.
  destruct (label_all profile songs Hp Hs) as [labelled HL].
  exists labelled. split; [exact HL|]. split.
  - clear Hs. induction HL as [|raw s songs labelled H _ IH]; constructor.
    + exact (labelled_has_mood profile raw s H).
    + exact IH.
  - exact (build_playlists_labelled profile songs labelled HL).
Qed.

Lemma build_playlists_groups_witness :
  exists labelled,
    Forall2 (labelled_as DEFAULT_PROFILE) scenario_songs labelled /\
    build_playlists scenario_songs DEFAULT_PROFILE
    = Ok [("Hype", select "Hype" labelled);
          ("Chill", select "Chill" labelled);
          ("Mixed", select "Mixed" labelled)].
Proof.
  destruct (build_playlists_groups scenario_songs DEFAULT_PROFILE) as [_ H].
  destruct H as [labelled [HL [_ Hrun]]].
  - reflexivity.
  - repeat constructor.
  - exists labelled. split; assumption.
Defined.

(** ** Merging *)

Section DictOrder.
Context {V : Type}.
Implicit Types (d : dict V) (k : string) (v : V).

Lemma keys_setitem_eq d k v :
  keys (setitem d k v)
  = if in_dec string_dec k (keys d) then keys d else keys d ++ [k].
Proof.
  induction d as [|[k0 v0] d IH]; simpl; [reflexivity|].
  destruct (String.eqb_spec k0 k) as [->|Hk]; simpl.
  - destruct (string_dec k k); [reflexivity|congruence].
  - rewrite IH. destruct (string_dec k0 k); [congruence|].
    now destruct (in_dec string_dec k (keys d)).
Qed.

Lemma NoDup_keys_setitem d k v : NoDup (keys d) -> NoDup (keys (setitem d k v)).
Proof.
  intros H. rewrite keys_setitem_eq.
  destruct (in_dec string_dec k (keys d)) as [|Hk]; [exact H|].
  apply NoDup_rev in H. rewrite <- (rev_involutive (keys d ++ [k])).
  apply NoDup_rev. rewrite rev_app_distr. simpl. constructor; [|exact H].
  now rewrite <- in_rev.
Qed.

Lemma In_lookup d k v : NoDup (keys d) -> In (k, v) d -> lookup d k = Some v.
Proof.
  induction d as [|[k0 v0] d IH]; simpl; [tauto|].
  intros Hd [H|H].
  - injection H as -> ->. now rewrite String.eqb_refl.
  - inversion Hd as [|? ? Hk0 Hd']; subst.
    destruct (String.eqb_spec k0 k) as [->|_]; [|now apply IH].
    exfalso. apply Hk0. change k with (fst (k, v)). now apply in_map.
Qed.
End DictOrder.

Section MergeFacts.
(** The enumeration of a set holds the elements put into it. *)
Variable set_iter : list string -> list string.
Hypothesis set_iter_elements : forall l k, In k (set_iter l) <-> In k l.

Variables a b : PlaylistMap.

Let merge_step (merged : PlaylistMap) (key : string) : PlaylistMap :=
  setitem merged key (get a key [] ++ get b key []).

Lemma lookup_merge_loop (ks : list string) (merged : PlaylistMap) (k : string) :
  lookup (fold_left merge_step ks merged) k
  = if in_dec string_dec k ks then Some (get a k [] ++ get b k [])
    else lookup merged k.
Proof.
  revert merged. induction ks as [|x ks IH]; intros merged; cbn [fold_left].
  { reflexivity. }
  rewrite IH. unfold merge_step. rewrite lookup_setitem.
  destruct (in_dec string_dec k (x :: ks)) as [H|H],
           (in_dec string_dec k ks) as [H'|H']; try reflexivity.
  - destruct H as [->|H]; [|contradiction]. now rewrite String.eqb_refl.
  - exfalso. apply H. now right.
  - destruct (String.eqb_spec x k) as [->|_]; [|reflexivity].
    exfalso. apply H. now left.
Qed.

Lemma NoDup_merge_loop (ks : list string) (merged : PlaylistMap) :
  NoDup (keys merged) -> NoDup (keys (fold_left merge_step ks merged)).
Proof.
  revert merged. induction ks as [|x ks IH]; intros merged H; simpl; [exact H|].
  apply IH. now apply NoDup_keys_setitem.
Qed.

Lemma lookup_merge (k : string) :
  lookup (merge_playlists set_iter a b) k
  = if in_dec string_dec k (keys a ++ keys b)
    then Some (get a k [] ++ get b k [])
    else None.
Proof.
  unfold merge_playlists. fold merge_step. rewrite lookup_merge_loop.
  destruct (in_dec string_dec k (set_iter (keys a ++ keys b))) as [H|H],
           (in_dec string_dec k (keys a ++ keys b)) as [H'|H'];
    try reflexivity; exfalso.
  - apply H'. now apply set_iter_elements.
  - apply H. now apply set_iter_elements.
Qed.

(** C2, amended: the keys of [merge_playlists(a, b)] are the keys of [a]
    together with the keys of [b], each once, whether canonical moods or
    not; a key of either map is bound to [a]'s sequence (empty if [a]
    lacks the key) followed by [b]'s (empty if [b] lacks it); a key of
    neither is not in the result, so subscripting with it raises
    [KeyError].  For "Hype" this means: [merged.get("Hype", [])] always
    equals [a.get("Hype", []) + b.get("Hype", [])], and [merged["Hype"]]
    equals it whenever "Hype" is a key of [a] or of [b]. *)
Theorem merge_playlists_union :
  let merged := merge_playlists set_iter a b in
  (forall k, In k (keys merged) <-> In k (keys a) \/ In k (keys b)) /\
  NoDup (keys merged) /\
  (forall k, In k (keys a) \/ In k (keys b) ->
             getitem merged k = Ok (get a k [] ++ get b k [])) /\
  (forall k, ~ (In k (keys a) \/ In k (keys b)) ->
             getitem merged k = Raise KeyError) /\
  get merged "Hype" [] = get a "Hype" [] ++ get b "Hype" [].
Proof.
  cbv zeta. split; [|split; [|split; [|split]]].
  - intros k. rewrite <- lookup_Some_In, lookup_merge, <- in_app_iff.
    destruct (in_dec string_dec k (keys a ++ keys b)).
    + split; [tauto|discriminate].
    + split; [congruence|contradiction].
  - unfold merge_playlists. apply (NoDup_merge_loop _ []). constructor.
  - intros k Hk. unfold getitem. rewrite lookup_merge.
    destruct (in_dec string_dec k (keys a ++ keys b)) as [|H]; [reflexivity|].
    exfalso. apply H, in_app_iff, Hk.
  - intros k Hk. unfold getitem. rewrite lookup_merge.
    destruct (in_dec string_dec k (keys a ++ keys b)) as [H|]; [|reflexivity].
    exfalso. apply Hk, in_app_iff, H.
  - unfold get at 1. rewrite lookup_merge.
    destruct (in_dec string_dec "Hype" (keys a ++ keys b)) as [|H]; [reflexivity|].
    rewrite in_app_iff in H. unfold get.
    destruct (lookup a "Hype") eqn:Ea.
    { exfalso. apply H. left. apply lookup_Some_In. congruence. }
    destruct (lookup b "Hype") eqn:Eb; [|reflexivity].
    exfalso. apply H. right. apply lookup_Some_In. congruence.
Qed.
End MergeFacts.

(** C2, the first sentence as stated fails: when "Hype" is a key of
    neither map, as for two empty maps, the merged map has no "Hype" key
    and [merge_playlists(a, b)["Hype"]] raises [KeyError] instead of being
    the empty concatenation. *)
Lemma merge_playlists_hype_missing :
  ~ (forall set_iter : list string -> list string,
        (forall l k, In k (set_iter l) <-> In k l) ->
        forall a b : PlaylistMap,
          getitem (merge_playlists set_iter a b) "Hype"
          = Ok (get a "Hype" [] ++ get b "Hype" [])).
Proof.
  intros H.
  specialize (H (fun l => l) (fun l k => iff_refl _) [] []).
  discriminate H.
Qed.

Lemma merge_playlists_union_witness :
  getitem (merge_playlists (nodup string_dec)
             (three [[("title", VStr "Go Loud")]] [] []) scenario_extra) "Hype"
  = Ok [[("title", VStr "Go Loud")]; [("title", VStr "Encore")]].
Proof.
  destruct (merge_playlists_union (nodup string_dec)
              (fun l k => nodup_In string_dec l k)
              (three [[("title", VStr "Go Loud")]] [] []) scenario_extra)
    as [_ [_ [H _]]].
  apply (H "Hype"). left. simpl. tauto.
Defined.

(** ** Statistics *)

Lemma py_sum_from (songs : list Song) (acc : Z) :
  Forall (fun s => energy_is_number s = true) songs ->
  for_each add_to (map (fun s => get s "energy" (VInt 0)) songs) acc
  = Ok (acc + sum_Z (map int_energy songs)).
Proof.
  intros H. revert acc. induction H as [|s songs Hs _ IH]; intros acc.
  - simpl. now rewrite Z.add_0_r.
  - cbn [map for_each].
    assert (E : add_to acc (get s "energy" (VInt 0)) = Ok (acc + int_energy s)).
    { unfold add_to, int_energy. unfold energy_is_number in Hs.
      now destruct (as_int (get s "energy" (VInt 0))). }
    rewrite E. cbn [bind]. rewrite IH. f_equal. unfold sum_Z. simpl. lia.
Qed.

Lemma py_sum_energy (songs : list Song) :
  Forall (fun s => energy_is_number s = true) songs ->
  py_sum (map (fun s => get s "energy" (VInt 0)) songs)
  = Ok (sum_Z (map int_energy songs)).
Proof. intros H. unfold py_sum. now rewrite py_sum_from. Qed.

Lemma length_concat_values (p : PlaylistMap) :
  List.length (List.concat (values p))
  = list_sum (map (fun entry => List.length (snd entry)) p).
Proof.
  induction p as [|[k songs] p IH]; simpl; [reflexivity|].
  now rewrite length_app, IH.
Qed.

Lemma float_overflow_large : 1 < float_overflow.
Proof. reflexivity. Qed.

Lemma true_div_in_range (n d : Z) :
  d <> 0 -> Z.abs n < float_overflow * Z.abs d ->
  true_div n d = Ok (inject_Z n / inject_Z d)%Q.
Proof.
  intros Hd Hr. unfold true_div.
  destruct (Z.eqb_spec d 0); [contradiction|].
  destruct (Z.leb_spec (float_overflow * Z.abs d) (Z.abs n)); [lia|reflexivity].
Qed.

Lemma true_div_out_of_range (n d : Z) :
  d <> 0 -> float_overflow * Z.abs d <= Z.abs n ->
  true_div n d = Raise OverflowError.
Proof.
  intros Hd Hr. unfold true_div.
  destruct (Z.eqb_spec d 0); [contradiction|].
  destruct (Z.leb_spec (float_overflow * Z.abs d) (Z.abs n)); [reflexivity|lia].
Qed.

Lemma len_positive {A : Type} (l : list A) : is_empty l = false -> 0 < len l.
Proof. destruct l; [discriminate|]. intros _. unfold len. cbn [List.length]. lia. Qed.

Lemma length_get_le (p : PlaylistMap) (k : string) :
  (List.length (get p k []) <= List.length (List.concat (values p)))%nat.
Proof.
  unfold get. induction p as [|[k0 v0] p IH]; cbn [lookup values map snd List.concat].
  - simpl. lia.
  - rewrite length_app. destruct (k0 =? k)%string; [lia|].
    unfold values in IH. lia.
Qed.

(** The ratio of a sequence of the map to all its songs is at most 1: the
    division that computes it cannot overflow. *)
Lemma true_div_ratio (p : PlaylistMap) (k : string) :
  is_empty (List.concat (values p)) = false ->
  true_div (len (get p k [])) (len (List.concat (values p)))
  = Ok (inject_Z (len (get p k [])) / inject_Z (len (List.concat (values p))))%Q.
Proof.
  intros E. pose proof (len_positive _ E) as Hpos.
  pose proof (length_get_le p k) as Hle. pose proof float_overflow_large as HF.
  apply true_div_in_range; [lia|].
  unfold len in *.
  set (a := Z.of_nat (List.length (get p k []))) in *.
  set (b := Z.of_nat (List.length (List.concat (values p)))) in *.
  assert (Hab : a <= b) by (unfold a, b; lia).
  assert (Ha : 0 <= a) by (unfold a; lia).
  rewrite (Z.abs_eq a Ha), (Z.abs_eq b) by lia.
  assert (2 * b <= float_overflow * b) by (apply Z.mul_le_mono_nonneg_r; lia).
  lia.
Qed.

Lemma py_sum_raises (songs : list Song) (acc : Z) :
  Exists (fun s => energy_is_number s = false) songs ->
  for_each add_to (map (fun s => get s "energy" (VInt 0)) songs) acc
  = Raise TypeError.
Proof.
  intros H. revert acc. induction H as [s songs Hs|s songs _ IH]; intros acc;
    cbn [map for_each]; unfold add_to at 1; unfold energy_is_number in *.
  - now destruct (as_int (get s "energy" (VInt 0))).
  - destruct (as_int (get s "energy" (VInt 0))); [|reflexivity].
    cbn [bind]. apply IH.
Qed.

Lemma is_empty_false_length {A : Type} (l : list A) :
  (0 < List.length l)%nat -> is_empty l = false.
Proof. destruct l; simpl; [lia|reflexivity]. Qed.

(** *** The counter *)

Lemma first_before_app (l l' : list string) (x y : string) :
  first_before l x y -> first_before (l ++ l') x y.
Proof.
  intros [pre [post [-> [Hx Hy]]]]. exists pre, (post ++ l').
  now rewrite <- app_assoc.
Qed.

Lemma counted_nil : counted [] [].
Proof.
  split; simpl; [constructor|reflexivity|].
  intros ks1 x ks2 y H. now destruct ks1.
Qed.

Lemma counted_key (seen : list string) (d : dict Z) (k : string) :
  counted seen d -> (In k (keys d) <-> In k seen).
Proof.
  intros H. rewrite <- lookup_Some_In, (counted_lookup _ _ H).
  unfold occurrences. rewrite (count_occ_In string_dec).
  destruct (Nat.eqb_spec (count_occ string_dec seen k) 0);
    split; intros; try lia; congruence.
Qed.

Lemma split_last (ks ks1 ks2 : list string) (e x : string) :
  ks ++ [e] = ks1 ++ x :: ks2 ->
  (ks2 = [] /\ x = e /\ ks1 = ks) \/
  (exists ks2', ks = ks1 ++ x :: ks2').
Proof.
  intros H. destruct (rev ks2) as [|z r] eqn:E.
  - left. apply (f_equal (@rev _)) in E. rewrite rev_involutive in E.
    simpl in E. subst ks2. apply app_inj_tail in H as [-> ->]. auto.
  - right. apply (f_equal (@rev _)) in E. rewrite rev_involutive in E.
    simpl in E. subst ks2. exists (rev r).
    change (ks1 ++ x :: rev r ++ [z]) with (ks1 ++ (x :: rev r) ++ [z]) in H.
    rewrite app_assoc in H. now apply app_inj_tail in H as [-> _].
Qed.

Lemma counted_step (seen : list string) (d : dict Z) (e : string) :
  counted seen d -> counted (seen ++ [e]) (count_step d e).
Proof.
  intros H. unfold count_step. split.
  - apply NoDup_keys_setitem, (counted_nodup _ _ H).
  - intros k. rewrite lookup_setitem. unfold get, occurrences.
    rewrite (counted_lookup _ _ H), count_occ_app. unfold occurrences. simpl.
    destruct (String.eqb_spec e k) as [->|Hk].
    + destruct (string_dec k k) as [_|]; [|congruence].
      destruct (Nat.eqb_spec (count_occ string_dec seen k) 0) as [E|E].
      * rewrite E. reflexivity.
      * destruct (Nat.eqb_spec (count_occ string_dec seen k + 1) 0); [lia|].
        f_equal. lia.
    + destruct (string_dec e k); [congruence|]. rewrite Nat.add_0_r.
      apply (counted_lookup _ _ H).
  - intros ks1 x ks2 y Hks Hy. rewrite keys_setitem_eq in Hks.
    destruct (in_dec string_dec e (keys d)) as [He|He].
    + apply first_before_app. exact (counted_order _ _ H ks1 x ks2 y Hks Hy).
    + apply split_last in Hks as [[_ [-> ->]]|[ks2' Hks]].
      * exists seen, []. split; [reflexivity|].
        rewrite <- !(counted_key seen d) by exact H. tauto.
      * apply first_before_app. exact (counted_order _ _ H ks1 x ks2' y Hks Hy).
Qed.

Lemma counted_loop (elems seen : list string) (d : dict Z) :
  counted seen d -> counted (seen ++ elems) (fold_left count_step elems d).
Proof.
  revert seen d. induction elems as [|e elems IH]; intros seen d H; simpl.
  - now rewrite app_nil_r.
  - change (seen ++ e :: elems) with (seen ++ [e] ++ elems).
    rewrite app_assoc. apply IH. now apply counted_step.
Qed.

Lemma counted_counter (elems : list string) : counted elems (counter elems).
Proof. exact (counted_loop elems [] [] counted_nil). Qed.

(** [max] returns the first of the items with the greatest count. *)
Lemma max_by_count_first (rest before after : list (string * Z)) (best : string * Z) :
  (forall item, In item before -> snd item < snd best) ->
  (forall item, In item after -> snd item <= snd best) ->
  exists l1 l2,
    before ++ best :: after ++ rest = l1 ++ max_by_count best rest :: l2 /\
    (forall item, In item l1 -> snd item < snd (max_by_count best rest)) /\
    (forall item, In item l2 -> snd item <= snd (max_by_count best rest)).
Proof.
  revert before after best.
  induction rest as [|item rest IH]; intros before after best Hb Ha.
  - exists before, after. now rewrite app_nil_r.
  - unfold max_by_count. cbn [fold_left]. fold (max_by_count
      (if snd best <? snd item then item else best) rest).
    destruct (Z.ltb_spec (snd best) (snd item)) as [Hlt|Hge].
    + destruct (IH (before ++ best :: after) [] item) as [l1 [l2 [E H]]].
      * intros x Hx. apply in_app_iff in Hx as [Hx|[<-|Hx]];
          [specialize (Hb x Hx)|idtac|specialize (Ha x Hx)]; lia.
      * intros x [].
      * exists l1, l2. split; [|exact H].
        rewrite <- E, <- app_assoc. reflexivity.
    + destruct (IH before (after ++ [item]) best Hb) as [l1 [l2 [E H]]].
      * intros x Hx. apply in_app_iff in Hx as [Hx|[<-|[]]];
          [exact (Ha x Hx)|lia].
      * exists l1, l2. split; [|exact H].
        rewrite <- E, <- app_assoc. reflexivity.
Qed.

Lemma lookup_In {V : Type} (d : dict V) (k : string) (v : V) :
  lookup d k = Some v -> In (k, v) d.
Proof.
  induction d as [|[k0 v0] d IH]; simpl; [discriminate|].
  destruct (String.eqb_spec k0 k) as [->|_].
  - intros H. injection H as ->. now left.
  - intros H. right. now apply IH.
Qed.

Lemma counted_entry (seen : list string) (d : dict Z) (k : string) (c : Z) :
  counted seen d -> In (k, c) d ->
  c = Z.of_nat (occurrences seen k) /\ occurrences seen k <> 0%nat.
Proof.
  intros H Hin. apply (In_lookup d k c (counted_nodup _ _ H)) in Hin.
  rewrite (counted_lookup _ _ H) in Hin.
  destruct (Nat.eqb_spec (occurrences seen k) 0); [discriminate|].
  injection Hin as <-. auto.
Qed.

(** The most common of a non-empty list of names. *)
Lemma counter_most_common (names : list string) :
  names <> [] ->
  exists top n,
    most_common_1 (counter names) = [(top, n)] /\
    In top names /\
    n = Z.of_nat (occurrences names top) /\
    (forall b, (occurrences names b <= occurrences names top)%nat) /\
    (forall b, occurrences names b = occurrences names top ->
               first_before names top b).
Proof.
  intros Hne. pose proof (counted_counter names) as Hc.
  destruct (counter names) as [|first rest] eqn:Ed.
  { destruct names as [|x names]; [congruence|]. exfalso.
    assert (Hx : In x (keys (@nil (string * Z))))
      by (apply (counted_key _ _ x Hc); now left).
    exact Hx. }
  cbn [most_common_1].
  destruct (max_by_count_first rest [] [] first) as [l1 [l2 [E [Hl1 Hl2]]]];
    try (intros item []).
  cbn [app] in E.
  destruct (max_by_count first rest) as [top n]. cbn [snd] in Hl1, Hl2.
  assert (Htop : In (top, n) (first :: rest))
    by (rewrite E; apply in_elt).
  destruct (counted_entry _ _ _ _ Hc Htop) as [Hn Hpos].
  exists top, n. split; [reflexivity|].
  split; [|split; [exact Hn|split]].
  - apply (count_occ_In string_dec). unfold occurrences in Hpos. lia.
  - intros b. destruct (Nat.eq_dec (occurrences names b) 0) as [->|Hb]; [lia|].
    assert (Hin : In (b, Z.of_nat (occurrences names b)) (first :: rest)).
    { apply lookup_In. rewrite (counted_lookup _ _ Hc).
      now destruct (Nat.eqb_spec (occurrences names b) 0). }
    rewrite E in Hin. apply in_app_iff in Hin as [Hin|[Hin|Hin]].
    + specialize (Hl1 _ Hin). cbn [snd] in Hl1. lia.
    + injection Hin as <- _. lia.
    + specialize (Hl2 _ Hin). cbn [snd] in Hl2. lia.
  - intros b Hb.
    apply (counted_order _ _ Hc (keys l1) top (keys l2) b).
    + rewrite E. unfold keys. now rewrite map_app.
    + intros Hin. unfold keys in Hin. apply in_map_iff in Hin as [[b' cb] [Eb Hin]].
      cbn [fst] in Eb. subst b'.
      assert (Hin' : In (b, cb) (first :: rest))
        by (rewrite E; apply in_or_app; now left).
      destruct (counted_entry _ _ _ _ Hc Hin') as [Hcb _].
      specialize (Hl1 _ Hin). cbn [snd] in Hl1. lia.
Qed.

Lemma most_common_artist_top (songs : list Song) :
  exists top n,
    most_common_artist songs = Ok (top, n) /\
    most_common_of (artist_names songs) top n.
Proof.
  unfold most_common_artist, most_common_of.
  destruct (artist_names songs) as [|x names] eqn:E.
  - exists "", 0. split; [reflexivity|]. split; [auto|congruence].
  - destruct (counter_most_common (x :: names)) as [top [n [Hrun H]]];
      [discriminate|].
    rewrite Hrun. exists top, n. split; [reflexivity|].
    split; [discriminate|intros _; exact H].
Qed.

Lemma compute_playlist_stats_run (p : PlaylistMap) (top : string * Z) :
  Forall (fun s => energy_is_number s = true) (get p "Hype" []) ->
  avg_in_range p ->
  most_common_artist (List.concat (values p)) = Ok top ->
  compute_playlist_stats p = Ok (stats_of p top).
Proof.
  intros Hnum Hrange Htop. unfold compute_playlist_stats, stats_of.
  rewrite Htop, (py_sum_energy _ Hnum). cbn [bind].
  destruct (is_empty (List.concat (values p))) eqn:E.
  - reflexivity.
  - rewrite (true_div_ratio p "Hype" E). cbn [bind].
    pose proof (len_positive _ E) as Hpos.
    rewrite true_div_in_range; [reflexivity|lia|].
    destruct Hrange as [H|H]; [rewrite H in E; discriminate|].
    rewrite (Z.abs_eq (len _)) by lia. exact H.
Qed.

Lemma compute_playlist_stats_overflow (p : PlaylistMap) :
  Forall (fun s => energy_is_number s = true) (get p "Hype" []) ->
  ~ avg_in_range p ->
  compute_playlist_stats p = Raise OverflowError.
Proof.
  intros Hnum Hrange. unfold compute_playlist_stats.
  rewrite (py_sum_energy _ Hnum). cbn [bind].
  destruct (is_empty (List.concat (values p))) eqn:E.
  - exfalso. apply Hrange. left. now destruct (List.concat (values p)).
  - rewrite (true_div_ratio p "Hype" E). cbn [bind].
    pose proof (len_positive _ E) as Hpos.
    rewrite true_div_out_of_range; [reflexivity|lia|].
    rewrite (Z.abs_eq (len _)) by lia.
    destruct (Z.le_gt_cases
                (float_overflow * len (List.concat (values p)))
                (Z.abs (sum_Z (map int_energy (get p "Hype" [])))))
      as [H|H]; [exact H|].
    exfalso. apply Hrange. right. lia.
Qed.

Lemma compute_playlist_stats_type_error (p : PlaylistMap) :
  Exists (fun s => energy_is_number s = false) (get p "Hype" []) ->
  compute_playlist_stats p = Raise TypeError.
Proof.
  intros Hex. unfold compute_playlist_stats.
  assert (E : is_empty (List.concat (values p)) = false).
  { apply is_empty_false_length.
    pose proof (length_get_le p "Hype").
    apply Exists_exists in Hex as [s [Hin _]].
    destruct (get p "Hype" []); [contradiction|]. cbn [List.length] in *. lia. }
  rewrite E, (true_div_ratio p "Hype" E). cbn [bind].
  unfold py_sum. now rewrite (py_sum_raises _ 0 Hex).
Qed.

Lemma avg_in_range_dec (p : PlaylistMap) : avg_in_range p \/ ~ avg_in_range p.
Proof.
  unfold avg_in_range.
  destruct (List.concat (values p)) as [|s l]; [left; now left|].
  destruct (Z.lt_ge_cases
              (Z.abs (sum_Z (map int_energy (get p "Hype" []))))
              (float_overflow * len (s :: l))) as [H|H].
  - left. now right.
  - right. intros [H'|H']; [discriminate|lia].
Qed.

(** The three outcomes of [compute_playlist_stats]. *)
Lemma compute_playlist_stats_cases (p : PlaylistMap) :
  (Forall (fun s => energy_is_number s = true) (get p "Hype" []) /\
   avg_in_range p /\
   exists top,
     most_common_artist (List.concat (values p)) = Ok top /\
     compute_playlist_stats p = Ok (stats_of p top)) \/
  (Exists (fun s => energy_is_number s = false) (get p "Hype" []) /\
   compute_playlist_stats p = Raise TypeError) \/
  (Forall (fun s => energy_is_number s = true) (get p "Hype" []) /\
   ~ avg_in_range p /\
   compute_playlist_stats p = Raise OverflowError).
Proof.
  destruct (Forall_Exists_dec (fun s => energy_is_number s = true)
              (fun s => bool_dec (energy_is_number s) true) (get p "Hype" []))
    as [Hall|Hex].
  - destruct (avg_in_range_dec p) as [Hr|Hr].
    + left. split; [exact Hall|]. split; [exact Hr|].
      destruct (most_common_artist_top (List.concat (values p))) as [t [n [Htop _]]].
      exists (t, n). split; [exact Htop|].
      exact (compute_playlist_stats_run p _ Hall Hr Htop).
    + right. right. split; [exact Hall|]. split; [exact Hr|].
      exact (compute_playlist_stats_overflow p Hall Hr).
  - right. left.
    assert (Hex' : Exists (fun s => energy_is_number s = false) (get p "Hype" [])).
    { apply Exists_exists. apply Exists_exists in Hex as [s [Hin Hs]].
      exists s. split; [exact Hin|]. now destruct (energy_is_number s). }
    split; [exact Hex'|]. exact (compute_playlist_stats_type_error p Hex').
Qed.

Lemma avg_in_range_total (p : PlaylistMap) :
  let total := list_sum (map (fun entry => List.length (snd entry)) p) in
  total = 0%nat \/
  Z.abs (sum_Z (map int_energy (get p "Hype" []))) < float_overflow * Z.of_nat total ->
  avg_in_range p.
Proof.
  cbv zeta. rewrite <- length_concat_values. unfold avg_in_range, len.
  intros [H|H]; [left|right; exact H].
  now destruct (List.concat (values p)).
Qed.

Lemma is_empty_length {A : Type} (l : list A) :
  is_empty l = (List.length l =? 0)%nat.
Proof. now destruct l. Qed.

(** C1, the claim as stated fails: a raw song of the favorite genre with
    [energy] [None] is labelled "Hype" without its energy being looked at,
    so [build_playlists] returns a map with one song, on which
    [compute_playlist_stats] raises [TypeError] in the sum and returns no
    [avg_energy]. *)
Lemma avg_energy_not_returned :
  build_playlists [[("genre", VStr "rock"); ("energy", VNone)]] DEFAULT_PROFILE
  = Ok scenario_none_energy /\
  compute_playlist_stats scenario_none_energy = Raise TypeError.
Proof. split; reflexivity. Qed.

(** C1, amended: whenever [compute_playlist_stats] returns, its
    [avg_energy] is the sum of the energies of the "Hype" songs alone
    divided by the number of songs in all the sequences of the map taken
    together, which is also its [total_songs], and it is 0 when the map
    holds no song at all.  It returns when the energies of the songs under
    "Hype" are integers (a missing one counting as 0) and that quotient is
    inside the range of a float. *)
Theorem avg_energy_over_total (p : PlaylistMap) :
  let total := list_sum (map (fun entry => List.length (snd entry)) p) in
  let energy_sum := sum_Z (map int_energy (get p "Hype" [])) in
  let average :=
    if (total =? 0)%nat then 0%Q
    else (inject_Z energy_sum / inject_Z (Z.of_nat total))%Q in
  (forall st,
      compute_playlist_stats p = Ok st ->
      total_songs st = Z.of_nat total /\ avg_energy st = average) /\
  (Forall (fun s => energy_is_number s = true) (get p "Hype" []) ->
   total = 0%nat \/ Z.abs energy_sum < float_overflow * Z.of_nat total ->
   exists st,
     compute_playlist_stats p = Ok st /\
     total_songs st = Z.of_nat total /\ avg_energy st = average).
Proof.
  cbv zeta.
  assert (Hst : forall top,
             total_songs (stats_of p top)
             = Z.of_nat (list_sum (map (fun entry => List.length (snd entry)) p)) /\
             avg_energy (stats_of p top)
             = if (list_sum (map (fun entry => List.length (snd entry)) p) =? 0)%nat
               then 0%Q
               else (inject_Z (sum_Z (map int_energy (get p "Hype" [])))
                     / inject_Z (Z.of_nat
                         (list_sum (map (fun entry => List.length (snd entry)) p))))%Q).
  { intros top. unfold stats_of. cbn [total_songs avg_energy].
    rewrite is_empty_length. unfold len.
    now rewrite length_concat_values. }
  split.
  - intros st Hrun.
    destruct (compute_playlist_stats_cases p)
      as [[_ [_ [top [_ E]]]]|[[_ E]|[_ [_ E]]]]; try congruence.
    rewrite E in Hrun. injection Hrun as <-. apply Hst.
  - intros Hnum Hrange.
    destruct (most_common_artist_top (List.concat (values p)))
      as [top [n [Htop _]]].
    exists (stats_of p (top, n)). split; [|apply Hst].
    apply compute_playlist_stats_run; [exact Hnum| |exact Htop].
    now apply avg_in_range_total.
Qed.

Lemma avg_energy_over_total_witness :
  exists st,
    compute_playlist_stats
      (three [[("artist", VStr "the crows"); ("energy", VInt 9)]]
             [[("artist", VStr "soft bird"); ("energy", VInt 1)]] []) = Ok st /\
    total_songs st = 2 /\
    avg_energy st = (inject_Z 9 / inject_Z 2)%Q.
Proof.
  apply (avg_energy_over_total
           (three [[("artist", VStr "the crows"); ("energy", VInt 9)]]
                  [[("artist", VStr "soft bird"); ("energy", VInt 1)]] [])).
  - repeat constructor.
  - right. reflexivity.
Defined.

Example avg_energy_overflow :
  compute_playlist_stats [("Hype", [[("energy", VInt (10 ^ 400))]])]
  = Raise OverflowError.
Proof. vm_compute. reflexivity. Qed.








Example scenario_tie_top :
  most_common_artist (List.concat (values scenario_tie)) = Ok ("b", 2).
Proof. reflexivity. Qed.

(** ** The random pick *)

Section RandomFacts.
(** The random source draws an index inside the sequence. *)
Variable randbelow : nat -> nat.
Hypothesis randbelow_lt : forall n, (0 < n)%nat -> (randbelow n < n)%nat.

Lemma random_choice_or_none_spec (songs : list Song) :
  (songs = [] -> random_choice_or_none randbelow songs = Ok None) /\
  (songs <> [] ->
   exists song,
     random_choice_or_none randbelow songs = Ok (Some song) /\ In song songs).
Proof.
  unfold random_choice_or_none. split.
  - now intros ->.
  - intros Hne. destruct songs as [|s songs]; [congruence|].
    cbn [is_empty].
    destruct (nth_error (s :: songs) (randbelow (List.length (s :: songs))))
      as [song|] eqn:E.
    + exists song. split; [reflexivity|]. exact (nth_error_In _ _ E).
    + exfalso. apply nth_error_None in E.
      specialize (randbelow_lt (List.length (s :: songs))).
      cbn [List.length] in *. lia.
Qed.

Lemma lucky_pick_unfold (playlists : PlaylistMap) (mode : string) :
  lucky_pick randbelow playlists mode
  = random_choice_or_none randbelow (pool playlists mode).
Proof.
  unfold lucky_pick, pool, get at 1. cbn [lookup].
  rewrite (String.eqb_sym "hype"), (String.eqb_sym "chill"),
    (String.eqb_sym "any").
  destruct (mode =? "hype")%string; [reflexivity|].
  destruct (mode =? "chill")%string; [reflexivity|].
  now destruct (mode =? "any")%string.
Qed.

(** C8: [lucky_pick] draws from the pool of its mode, the "Hype"
    sequence for "hype", the "Chill" sequence for "chill", "Hype"
    followed by "Chill" for "any", nothing for any other mode: it returns
    [None] exactly when the pool is empty and an element of the pool
    otherwise.  The pool does not depend on what is under "Mixed", and on
    the empty map with mode "hype" the result is [None]. *)
Theorem lucky_pick_from_pool (playlists : PlaylistMap) (mode : string) :
  (pool playlists mode = [] <-> lucky_pick randbelow playlists mode = Ok None) /\
  (pool playlists mode <> [] ->
   exists song,
     lucky_pick randbelow playlists mode = Ok (Some song) /\
     In song (pool playlists mode)) /\
  (forall mixed, pool (setitem playlists "Mixed" mixed) mode = pool playlists mode) /\
  lucky_pick randbelow [] "hype" = Ok None.
Proof.
  rewrite lucky_pick_unfold.
  destruct (random_choice_or_none_spec (pool playlists mode)) as [Hnil Hcons].
  split; [|split; [exact Hcons|split]].
  - split; [exact Hnil|]. intros Hrun.
    destruct (pool playlists mode) as [|s l] eqn:E; [reflexivity|].
    destruct Hcons as [song [Hsome _]]; [discriminate|]. congruence.
  - intros mixed. unfold pool. now rewrite !get_setitem.
  - reflexivity.
Qed.
End RandomFacts.

Lemma lucky_pick_from_pool_witness :
  exists song,
    lucky_pick (fun _ => 0%nat) scenario_tie "any" = Ok (Some song) /\
    In song (pool scenario_tie "any").
Proof.
  destruct (lucky_pick_from_pool (fun _ => 0%nat) (fun n H => H) scenario_tie "any")
    as [_ [H _]].
  apply H. discriminate.
Defined.

(** ** The history summary *)

Lemma py_eqb_norm (a b : pyval) :
  hashable a = true -> hashable b = true ->
  (py_eqb a b = true <-> key_norm a = key_norm b).
Proof.
  intros Ha Hb.
  destruct a as [|x|x|x|x], b as [|y|y|y|y]; simpl in *;
    try discriminate; try (split; [discriminate|intros H; discriminate H]);
    try tauto.
  - rewrite Z.eqb_eq. split; [congruence|]. intros H. now injection H.
  - rewrite Z.eqb_eq. split; [congruence|]. intros H. now injection H.
  - rewrite Z.eqb_eq. split; [congruence|]. intros H. now injection H.
  - rewrite Z.eqb_eq. split; [congruence|]. intros H. now injection H.
  - rewrite String.eqb_eq. split; [congruence|]. intros H. now injection H.
Qed.

Lemma py_eqb_left (a b c : pyval) :
  hashable a = true -> hashable b = true -> hashable c = true ->
  py_eqb a b = true -> py_eqb a c = py_eqb b c.
Proof.
  intros Ha Hb Hc Hab. apply py_eqb_norm in Hab; trivial.
  destruct (py_eqb a c) eqn:Eac, (py_eqb b c) eqn:Ebc; try reflexivity.
  - apply py_eqb_norm in Eac; trivial.
    assert (X : py_eqb b c = true) by (apply py_eqb_norm; congruence).
    congruence.
  - apply py_eqb_norm in Ebc; trivial.
    assert (X : py_eqb a c = true) by (apply py_eqb_norm; congruence).
    congruence.
Qed.

Lemma py_eqb_right (a b c : pyval) :
  hashable a = true -> hashable b = true -> hashable c = true ->
  py_eqb a b = true -> py_eqb c a = py_eqb c b.
Proof.
  intros Ha Hb Hc Hab. apply py_eqb_norm in Hab; trivial.
  destruct (py_eqb c a) eqn:Eca, (py_eqb c b) eqn:Ecb; try reflexivity.
  - apply py_eqb_norm in Eca; trivial.
    assert (X : py_eqb c b = true) by (apply py_eqb_norm; congruence).
    congruence.
  - apply py_eqb_norm in Ecb; trivial.
    assert (X : py_eqb c a = true) by (apply py_eqb_norm; congruence).
    congruence.
Qed.

Lemma hashable_keys_vinsert {V : Type} (d : vdict V) (k : pyval) (x : V) :
  hashable k = true -> hashable_keys d -> hashable_keys (vinsert d k x).
Proof.
  intros Hk. induction 1 as [|[k0 v0] d H0 Hd IH]; simpl.
  - repeat constructor. exact Hk.
  - destruct (py_eqb k0 k); constructor; trivial.
Qed.

Lemma vlookup_vinsert {V : Type} (d : vdict V) (k v : pyval) (x : V) :
  hashable_keys d -> hashable k = true -> hashable v = true ->
  vlookup (vinsert d k x) v = if py_eqb k v then Some x else vlookup d v.
Proof.
  intros Hd Hk Hv. induction Hd as [|[k0 v0] d H0 Hd IH]; simpl.
  - reflexivity.
  - cbn [fst] in H0. destruct (py_eqb k0 k) eqn:E; simpl.
    + rewrite (py_eqb_left k0 k v) by trivial. now destruct (py_eqb k v).
    + rewrite IH. destruct (py_eqb k0 v) eqn:E0; [|reflexivity].
      destruct (py_eqb k v) eqn:E1; [|reflexivity].
      rewrite (py_eqb_right k v k0) in E; trivial. congruence.
Qed.

Lemma tally_snoc (history : list Song) (song : Song) (v : pyval) :
  tally (history ++ [song]) v
  = tally history v + if py_eqb (mood_of song) v then 1 else 0.
Proof.
  unfold tally, len. rewrite filter_app, length_app. cbn [filter].
  destruct (py_eqb (mood_of song) v); cbn [List.length]; lia.
Qed.

Lemma tally_nonneg (history : list Song) (v : pyval) : 0 <= tally history v.
Proof. unfold tally, len. lia. Qed.

Lemma tally_eq (history : list Song) (a b : pyval) :
  Forall (fun s => hashable (mood_of s) = true) history ->
  hashable a = true -> hashable b = true -> py_eqb a b = true ->
  tally history a = tally history b.
Proof.
  intros H Ha Hb Hab. unfold tally. f_equal.
  induction H as [|s history Hs _ IH]; [reflexivity|].
  cbn [filter]. rewrite (py_eqb_right a b (mood_of s)) by trivial.
  now rewrite IH.
Qed.

Lemma summarized_initial : summarized [] initial_counts.
Proof.
  split.
  - repeat constructor.
  - intros v _. unfold summary_entry, is_preset, initial_counts. cbn [vlookup].
    destruct (py_eqb (VStr "Hype") v); [reflexivity|].
    destruct (py_eqb (VStr "Chill") v); [reflexivity|].
    now destruct (py_eqb (VStr "Mixed") v).
Qed.

Lemma summarized_step (seen : list Song) (counts : vdict Z) (song : Song) :
  Forall (fun s => hashable (mood_of s) = true) seen ->
  hashable (mood_of song) = true ->
  summarized seen counts ->
  exists counts',
    count_mood counts song = Ok counts' /\ summarized (seen ++ [song]) counts'.
Proof.
  intros Hseen Hm [Hk Hl]. unfold count_mood. fold (mood_of song).
  set (m := mood_of song) in *.
  unfold vget, vsetitem. rewrite Hm. cbn [bind].
  eexists. split; [reflexivity|].
  assert (Hold : match vlookup counts m with Some c => c | None => 0 end
                 = tally seen m).
  { rewrite (Hl m Hm). unfold summary_entry.
    destruct (is_preset m || (0 <? tally seen m)) eqn:E; [reflexivity|].
    apply orb_false_iff in E as [_ E]. apply Z.ltb_ge in E.
    pose proof (tally_nonneg seen m). lia. }
  rewrite Hold. split.
  - now apply hashable_keys_vinsert.
  - intros v Hv. rewrite vlookup_vinsert by trivial.
    unfold summary_entry. rewrite tally_snoc. fold m.
    destruct (py_eqb m v) eqn:E.
    + rewrite <- (tally_eq seen m v) by trivial.
      pose proof (tally_nonneg seen m).
      destruct (Z.ltb_spec 0 (tally seen m + 1)); [|lia].
      now rewrite orb_true_r.
    + rewrite Z.add_0_r. apply (Hl v Hv).
Qed.

Lemma summarized_loop (rest seen : list Song) (counts : vdict Z) :
  Forall (fun s => hashable (mood_of s) = true) seen ->
  Forall (fun s => hashable (mood_of s) = true) rest ->
  summarized seen counts ->
  exists counts',
    for_each count_mood rest counts = Ok counts' /\
    summarized (seen ++ rest) counts'.
Proof.
  revert seen counts.
  induction rest as [|song rest IH]; intros seen counts Hseen Hrest Hs.
  - exists counts. rewrite app_nil_r. now split.
  - inversion Hrest as [|? ? Hm Hrest']; subst.
    destruct (summarized_step seen counts song Hseen Hm Hs) as [c1 [E1 H1]].
    destruct (IH (seen ++ [song]) c1) as [c2 [E2 H2]]; trivial.
    { apply Forall_app. split; [exact Hseen|now constructor]. }
    exists c2. cbn [for_each]. rewrite E1. cbn [bind].
    split; [exact E2|]. now rewrite <- app_assoc in H2.
Qed.

(** C9: on a history in which every [mood] can be a dictionary key, as
    the string labels of song records are, [history_summary] returns a
    mapping in which a key is bound to the number of songs whose [mood]
    equals it, a song without [mood] counting under "Mixed"; the keys are
    "Hype", "Chill" and "Mixed", present even at 0, and every other mood
    that occurs in the history.  On the history of two "Hype" songs and
    one song without [mood], it is Hype 2, Chill 0, Mixed 1. *)
Theorem history_summary_counts (history : list Song)
  (Hmoods : Forall (fun s => hashable (get s "mood" (VStr "Mixed")) = true) history) :
  (exists counts,
      history_summary history = Ok counts /\
      forall v, hashable v = true ->
        vlookup counts v
        = if is_preset v || (0 <? tally history v)
          then Some (tally history v) else None) /\
  history_summary [[("mood", VStr "Hype")]; [("mood", VStr "Hype")]; []]
  = Ok [(VStr "Hype", 2); (VStr "Chill", 0); (VStr "Mixed", 1)].
Proof.
  split; [|reflexivity].
  destruct (summarized_loop history [] initial_counts) as [counts [Hrun Hs]].
  - constructor.
  - exact Hmoods.
  - exact summarized_initial.
  - exists counts. split; [exact Hrun|].
    exact (summarized_lookup _ _ Hs).
Qed.

Lemma history_summary_counts_witness :
  exists counts,
    history_summary scenario_history = Ok counts /\
    vlookup counts (VStr "Party") = Some 2 /\
    vlookup counts (VStr "Chill") = Some 0 /\
    vlookup counts (VStr "Jazz") = None.
Proof.
  destruct (history_summary_counts scenario_history) as [[counts [Hrun H]] _].
  - repeat constructor.
  - exists counts. split; [exact Hrun|].
    repeat split; rewrite H; reflexivity.
Defined.

Example history_summary_unhashable :
  history_summary [[("mood", VList [])]] = Raise TypeError.
Proof. reflexivity. Qed.

(** * Further properties *)

(** ** The normalizer, again *)

Lemma lower_strip_twice (x : string) :
  PyStr.lower (PyStr.strip (PyStr.lower (PyStr.strip x)))
  = PyStr.lower (PyStr.strip x).
Proof.
  rewrite (PyStrFacts.lower_strip (PyStr.lower (PyStr.strip x))).
  rewrite PyStrFacts.lower_idempotent, <- PyStrFacts.lower_strip.
  now rewrite PyStrFacts.strip_idempotent.
Qed.

(** X1: normalizing a normalized record changes nothing. *)
Theorem normalize_song_idempotent (raw : Song) :
  normalize_song (normalize_song raw) = normalize_song raw.
Proof.
  unfold normalize_song at 1.
  assert (Ht : get (normalize_song raw) "title" (VStr "")
               = VStr (normalize_title (VStr (py_str (get raw "title" (VStr ""))))))
    by reflexivity.
  assert (Ha : get (normalize_song raw) "artist" (VStr "")
               = VStr (normalize_artist (py_str (get raw "artist" (VStr "")))))
    by reflexivity.
  assert (Hg : get (normalize_song raw) "genre" (VStr "")
               = VStr (normalize_genre (py_str (get raw "genre" (VStr "")))))
    by reflexivity.
  rewrite Ht, Ha, Hg. cbn [py_str].
  assert (E1 : forall x, normalize_title (VStr (normalize_title (VStr x)))
                         = normalize_title (VStr x))
    by (intros x; apply PyStrFacts.strip_idempotent).
  assert (E2 : forall x, normalize_artist (normalize_artist x) = normalize_artist x)
    by (intros x; rewrite !normalize_artist_eq; apply lower_strip_twice).
  assert (E3 : forall x, normalize_genre (normalize_genre x) = normalize_genre x).
  { intros x. unfold normalize_genre.
    rewrite <- (PyStrFacts.lower_strip x), <- PyStrFacts.lower_strip.
    apply lower_strip_twice. }
  rewrite E1, E2, E3. unfold normalize_song.
  cbn [get lookup String.eqb Ascii.eqb Bool.eqb].
  destruct (get raw "energy" (VInt 0)) as [| | |s|];
    destruct (get raw "tags" (VList [])); try reflexivity;
    now destruct (PyStr.to_int s).
Qed.

(** X2: [normalize_artist] and [normalize_genre] compute the same string,
    although one trims before lower-casing and the other after. *)
Theorem normalize_artist_genre_agree (s : string) :
  normalize_artist s = normalize_genre s.
Proof.
  rewrite normalize_artist_eq. unfold normalize_genre.
  apply PyStrFacts.lower_strip.
Qed.

(** X3: [normalize_song] reads five fields only: a raw field under any
    other name does not influence the result and is not copied into it. *)
Theorem normalize_song_other_fields (raw : Song) (k : string) (v : pyval)
  (Hk : ~ In k ["title"; "artist"; "genre"; "energy"; "tags"]) :
  normalize_song (setitem raw k v) = normalize_song raw /\
  lookup (normalize_song (setitem raw k v)) k = None.
Proof.
  assert (E : forall f d, In f ["title"; "artist"; "genre"; "energy"; "tags"] ->
              get (setitem raw k v) f d = get raw f d).
  { intros f d Hf. rewrite get_setitem.
    destruct (String.eqb_spec k f) as [->|_]; [contradiction|reflexivity]. }
  assert (Hn : normalize_song (setitem raw k v) = normalize_song raw).
  { unfold normalize_song. rewrite !E by (simpl; tauto). reflexivity. }
  split; [exact Hn|].
  rewrite Hn. apply lookup_None. exact Hk.
Qed.

Lemma normalize_song_other_fields_witness :
  normalize_song (setitem [("title", VStr " Go ")] "mood" (VStr "Hype"))
  = normalize_song [("title", VStr " Go ")].
Proof.
  apply (normalize_song_other_fields [("title", VStr " Go ")] "mood" (VStr "Hype")).
  simpl. intros [H|[H|[H|[H|[H|[]]]]]]; discriminate H.
Defined.

(** ** Searching *)

Lemma contains_empty (s : string) : PyStr.contains "" s = true.
Proof. now destruct s. Qed.

Lemma filter_all {A : Type} (f : A -> bool) (l : list A) :
  (forall x, In x l -> f x = true) -> filter f l = l.
Proof.
  induction l as [|x l IH]; intros H; simpl; [reflexivity|].
  rewrite (H x) by now left. f_equal. apply IH. intros y Hy. apply H. now right.
Qed.

Lemma search_songs_filter (songs : list Song) (query field : string) :
  search_songs songs query field = filter (field_matches query field) songs.
Proof.
  unfold search_songs. destruct query as [|c q]; [|reflexivity].
  symmetry. apply filter_all. intros s _. apply contains_empty.
Qed.

Lemma filter_swap {A : Type} (f g : A -> bool) (l : list A) :
  filter f (filter g l) = filter g (filter f l).
Proof.
  induction l as [|x l IH]; simpl; [reflexivity|].
  destruct (f x) eqn:Ef, (g x) eqn:Eg; simpl; rewrite ?Ef, ?Eg, IH; reflexivity.
Qed.

Lemma filter_twice {A : Type} (f : A -> bool) (l : list A) :
  filter f (filter f l) = filter f l.
Proof.
  apply filter_all. intros x Hx. now apply filter_In in Hx.
Qed.

(** X4: a song is in the result of [search_songs] exactly when it is in the
    list searched and the lower-cased text of its field contains the
    lower-cased, trimmed query; this covers the empty query, which every
    text contains. *)
Theorem search_songs_member (songs : list Song) (query field : string) (song : Song) :
  In song (search_songs songs query field) <->
  In song songs /\
  exists pre post,
    PyStr.lower (py_str (get song field (VStr "")))
    = (pre ++ PyStr.strip (PyStr.lower query) ++ post)%string.
Proof.
  rewrite search_songs_filter, filter_In. unfold field_matches.
  now rewrite PyStrFacts.contains_spec.
Qed.

Lemma search_songs_member_witness :
  In [("title", VStr "Go Loud"); ("artist", VStr "The Crows");
      ("genre", VStr "rock"); ("energy", VInt 9)]
     (search_songs scenario_songs " CROWS " "artist").
Proof.
  apply (search_songs_member scenario_songs " CROWS " "artist"). split.
  - simpl. tauto.
  - exists "the ", "". reflexivity.
Defined.

(** X5: a query that is empty or made of white space only selects every
    song: the list comes back whole, in the same order. *)
Theorem search_songs_blank (songs : list Song) (query field : string)
  (Hblank : PyStr.strip query = "") :
  search_songs songs query field = songs.
Proof.
  rewrite search_songs_filter. apply filter_all. intros s _.
  unfold field_matches.
  rewrite <- PyStrFacts.lower_strip, Hblank. apply contains_empty.
Qed.

Lemma search_songs_blank_witness :
  search_songs scenario_songs "   " "artist" = scenario_songs.
Proof. apply (search_songs_blank scenario_songs "   " "artist"). reflexivity. Defined.

(** X6: the search does not look at the case of the query: two queries
    with the same lower-casing select the same songs. *)
Theorem search_songs_query_case (songs : list Song) (q1 q2 field : string)
  (Hcase : PyStr.lower q1 = PyStr.lower q2) :
  search_songs songs q1 field = search_songs songs q2 field.
Proof.
  rewrite !search_songs_filter. unfold field_matches. now rewrite Hcase.
Qed.

Lemma search_songs_query_case_witness :
  search_songs scenario_songs "CROWS" "artist"
  = search_songs scenario_songs "crows" "artist".
Proof.
  apply (search_songs_query_case scenario_songs "CROWS" "crows" "artist").
  reflexivity.
Defined.

(** X7: searching a result again with the same query and field changes
    nothing, and two searches can be made in either order. *)
Theorem search_songs_compose (songs : list Song) (q1 f1 q2 f2 : string) :
  search_songs (search_songs songs q1 f1) q1 f1 = search_songs songs q1 f1 /\
  search_songs (search_songs songs q1 f1) q2 f2
  = search_songs (search_songs songs q2 f2) q1 f1.
Proof.
  rewrite !search_songs_filter. split; [apply filter_twice|apply filter_swap].
Qed.

Example search_songs_scenario :
  search_songs scenario_songs "crows" "artist"
  = [ [("title", VStr "Go Loud"); ("artist", VStr "The Crows");
       ("genre", VStr "rock"); ("energy", VInt 9)] ].
Proof. reflexivity. Qed.

(** ** Looking a song up *)

Lemma song_key_plain (song : Song) : _song_key song = plain_key song.
Proof.
  unfold _song_key, plain_key, normalize_title.
  now rewrite normalize_artist_eq, PyStrFacts.lower_idempotent.
Qed.

Lemma key_eqb_eq (a b : string * string) : key_eqb a b = true <-> a = b.
Proof.
  destruct a as [a1 a2], b as [b1 b2]. unfold key_eqb. cbn [fst snd].
  rewrite andb_true_iff, !String.eqb_eq. split; [intros [-> ->]|intros H].
  - reflexivity.
  - now injection H.
Qed.

Lemma contains_song_iff (songs : list Song) (target : Song) :
  contains_song songs target = true <->
  exists s, In s songs /\ _song_key s = _song_key target.
Proof.
  unfold contains_song. rewrite existsb_exists.
  split; intros [s [Hin H]]; exists s; split; trivial; now apply key_eqb_eq.
Qed.

Lemma song_key_normalized (raw : Song) :
  _song_key (normalize_song raw) = _song_key raw.
Proof.
  rewrite !song_key_plain. unfold plain_key.
  assert (Ht : get (normalize_song raw) "title" (VStr "")
               = VStr (normalize_title (VStr (py_str (get raw "title" (VStr ""))))))
    by reflexivity.
  assert (Ha : get (normalize_song raw) "artist" (VStr "")
               = VStr (normalize_artist (py_str (get raw "artist" (VStr "")))))
    by reflexivity.
  rewrite Ht, Ha. cbn [py_str]. unfold normalize_title.
  rewrite normalize_artist_eq, PyStrFacts.strip_idempotent.
  now rewrite lower_strip_twice.
Qed.

Lemma song_key_setitem (song : Song) (k : string) (v : pyval) :
  k <> "title" -> k <> "artist" ->
  _song_key (setitem song k v) = _song_key song.
Proof.
  intros Ht Ha. unfold _song_key. rewrite !get_setitem.
  destruct (String.eqb_spec k "title"); [contradiction|].
  now destruct (String.eqb_spec k "artist").
Qed.

(** X8: [contains_song] finds the target exactly when some song of the
    list has the same title and the same artist once both are stringified,
    trimmed and lower-cased; case and surrounding white space play no
    part. *)
Theorem contains_song_insensitive (songs : list Song) (target : Song) :
  contains_song songs target = true <->
  exists s,
    In s songs /\
    PyStr.lower (PyStr.strip (py_str (get s "title" (VStr ""))))
    = PyStr.lower (PyStr.strip (py_str (get target "title" (VStr "")))) /\
    PyStr.lower (PyStr.strip (py_str (get s "artist" (VStr ""))))
    = PyStr.lower (PyStr.strip (py_str (get target "artist" (VStr "")))).
Proof.
  rewrite contains_song_iff.
  split; intros [s [Hin H]]; exists s; (split; [exact Hin|]).
  - rewrite !song_key_plain in H. unfold plain_key in H. now injection H.
  - rewrite !song_key_plain. unfold plain_key. destruct H as [-> ->]. reflexivity.
Qed.

Lemma contains_song_insensitive_witness :
  contains_song scenario_songs
    [("title", VStr " go loud "); ("artist", VStr "THE CROWS")] = true.
Proof.
  apply (contains_song_insensitive scenario_songs).
  exists [("title", VStr "Go Loud"); ("artist", VStr "The Crows");
          ("genre", VStr "rock"); ("energy", VInt 9)].
  split; [simpl; tauto|]. split; reflexivity.
Defined.

(** X9: normalization does not change what [contains_song] answers:
    the target may be normalized, and so may the songs of the list. *)
Theorem contains_song_normalized (songs : list Song) (target : Song) :
  contains_song songs (normalize_song target) = contains_song songs target /\
  contains_song (map normalize_song songs) target = contains_song songs target.
Proof.
  split.
  - unfold contains_song. now rewrite song_key_normalized.
  - unfold contains_song.
    induction songs as [|s songs IH]; [reflexivity|].
    cbn [map existsb]. now rewrite song_key_normalized, IH.
Qed.

Example contains_song_scenario :
  contains_song scenario_songs [("title", VStr " go loud "); ("artist", VStr "THE CROWS")]
  = true.
Proof. reflexivity. Qed.

(** ** The classifier, again *)

(** Induction on values that reaches into lists. *)
Lemma pyval_induction (P : pyval -> Prop) :
  P VNone -> (forall b, P (VBool b)) -> (forall z, P (VInt z)) ->
  (forall s, P (VStr s)) -> (forall l, Forall P l -> P (VList l)) ->
  forall v, P v.
Proof.
  intros HN HB HI HS HL. fix IH 1.
  intros [|b|z|s|l]; [exact HN|apply HB|apply HI|apply HS|].
  apply HL. induction l as [|x l IHl]; constructor; [apply IH|exact IHl].
Qed.

Lemma py_order_raises (test : comparison -> bool) (a b : pyval) (e : exn) :
  py_order test a b = Raise e -> e = TypeError.
Proof.
  revert b. induction a as [|x|x|x|l IH] using pyval_induction; intros b;
    destruct b as [|y|y|y|m]; simpl; try congruence.
  revert m. induction IH as [|x l Hx _ IHl]; intros [|y m]; try congruence.
  destruct (py_eqb x y); [apply IHl|apply Hx].
Qed.

Lemma any_in_raises (keywords : list string) (v : pyval) (e : exn) :
  any_in keywords v = Raise e -> e = TypeError.
Proof.
  induction keywords as [|k rest IH]; simpl; [discriminate|].
  destruct v; simpl; try congruence;
    match goal with |- context [if ?c then _ else _] => destruct c end;
    try discriminate; exact IH.
Qed.

Lemma classify_song_raises (song : Song) (profile : dict pyval) (e : exn) :
  classify_song song profile = Raise e -> e = TypeError.
Proof.
  unfold classify_song. intros H.
  destruct (any_in hype_keywords _) as [hk|e1] eqn:E1;
    [|apply any_in_raises in E1; cbn in H; congruence].
  destruct (any_in chill_keywords _) as [ck|e2] eqn:E2;
    [|apply any_in_raises in E2; cbn in H; congruence].
  cbn [bind] in H.
  destruct (py_eqb _ _); cbn [or_else bind] in H; [discriminate|].
  unfold py_ge, py_le in H.
  destruct (py_order _ (get song "energy" (VInt 0))
              (get profile "hype_min_energy" (VInt 7))) as [[]|e3] eqn:E3;
    cbn [or_else bind] in H;
    [discriminate| |apply py_order_raises in E3; congruence].
  destruct hk; cbn [bind] in H; [discriminate|].
  destruct (py_order _ (get song "energy" (VInt 0))
              (get profile "chill_max_energy" (VInt 3))) as [[]|e4] eqn:E4;
    cbn [or_else bind] in H;
    [discriminate| |apply py_order_raises in E4; congruence].
  destruct ck; discriminate.
Qed.

(** X10: whatever the song and the profile hold, [classify_song] either
    returns one of the labels "Hype", "Chill", "Mixed" or raises
    [TypeError]; it returns no other string and raises nothing else. *)
Theorem classify_song_outcome (song : Song) (profile : dict pyval) :
  (exists mood,
      classify_song song profile = Ok mood /\ In mood ["Hype"; "Chill"; "Mixed"]) \/
  classify_song song profile = Raise TypeError.
Proof.
  destruct (classify_song song profile) as [mood|e] eqn:E.
  - left. exists mood. split; [reflexivity|].
    exact (classify_song_mood song profile mood E).
  - right. f_equal. exact (classify_song_raises song profile e E).
Qed.

(** X11: the classifier reads [energy], [genre] and [title] of the song
    and the two thresholds and [favorite_genre] of the profile, nothing
    else: setting any other field of either leaves the result as it was.
    So [include_mixed] and [name] are never consulted. *)
Theorem classify_song_other_fields (song : Song) (profile : dict pyval)
  (k k' : string) (v v' : pyval)
  (Hk : ~ In k ["energy"; "genre"; "title"])
  (Hk' : ~ In k' ["hype_min_energy"; "chill_max_energy"; "favorite_genre"]) :
  classify_song (setitem song k v) (setitem profile k' v')
  = classify_song song profile.
Proof.
  assert (E : forall f d, In f ["energy"; "genre"; "title"] ->
              get (setitem song k v) f d = get song f d).
  { intros f d Hf. rewrite get_setitem.
    destruct (String.eqb_spec k f) as [->|_]; [contradiction|reflexivity]. }
  assert (E' : forall f d,
             In f ["hype_min_energy"; "chill_max_energy"; "favorite_genre"] ->
             get (setitem profile k' v') f d = get profile f d).
  { intros f d Hf. rewrite get_setitem.
    destruct (String.eqb_spec k' f) as [->|_]; [contradiction|reflexivity]. }
  unfold classify_song.
  rewrite !E, !E' by (simpl; tauto). reflexivity.
Qed.

Lemma classify_song_other_fields_witness :
  classify_song
    (setitem [("genre", VStr "jazz"); ("energy", VInt 5)] "artist" (VStr "x"))
    (setitem DEFAULT_PROFILE "include_mixed" (VBool false))
  = classify_song [("genre", VStr "jazz"); ("energy", VInt 5)] DEFAULT_PROFILE.
Proof.
  apply (classify_song_other_fields
           [("genre", VStr "jazz"); ("energy", VInt 5)] DEFAULT_PROFILE
           "artist" "include_mixed").
  - simpl. intros [H|[H|[H|[]]]]; discriminate H.
  - simpl. intros [H|[H|[H|[]]]]; discriminate H.
Defined.

Lemma py_order_not_number (test : comparison -> bool) (a b : pyval) (y : Z) :
  as_int a = None -> as_int b = Some y -> py_order test a b = Raise TypeError.
Proof.
  destruct a, b; simpl; intros Ha Hb; try discriminate; reflexivity.
Qed.

(** X12: when the energy of a song is not a number ([None], text, a list)
    and the Hype threshold is one, the classifier returns "Hype" if the
    genre equals the favorite genre and raises [TypeError] if it does not:
    the keywords in the genre or the title do not rescue the song. *)
Theorem classify_song_energy_not_number (song : Song) (profile : dict pyval)
  (g t : string) (h : Z)
  (Hgenre : get song "genre" (VStr "") = VStr g)
  (Htitle : get song "title" (VStr "") = VStr t)
  (Henergy : as_int (get song "energy" (VInt 0)) = None)
  (Hhype : as_int (get profile "hype_min_energy" (VInt 7)) = Some h) :
  classify_song song profile
  = if py_eqb (VStr g) (get profile "favorite_genre" (VStr ""))
    then Ok "Hype" else Raise TypeError.
Proof.
  unfold classify_song. rewrite Hgenre, Htitle, !any_in_text. cbn [bind].
  destruct (py_eqb (VStr g) _); [reflexivity|].
  cbn [or_else]. unfold py_ge.
  now rewrite (py_order_not_number _ _ _ h Henergy Hhype).
Qed.

Lemma classify_song_energy_not_number_witness :
  classify_song [("genre", VStr "punk"); ("energy", VNone)] DEFAULT_PROFILE
  = Raise TypeError.
Proof.
  apply (classify_song_energy_not_number
           [("genre", VStr "punk"); ("energy", VNone)] DEFAULT_PROFILE
           "punk" "" 7); reflexivity.
Defined.

(** ** The playlist builder, again *)

Lemma add_song_raises (profile : dict pyval) (playlists : PlaylistMap)
  (raw : Song) (e : exn) :
  classify_song (normalize_song raw) profile = Raise e ->
  add_song profile playlists raw = Raise TypeError.
Proof.
  intros H. unfold add_song. rewrite H. cbn [bind]. f_equal.
  exact (classify_song_raises _ _ _ H).
Qed.

Lemma build_from_three_outcome (profile : dict pyval) (songs : list Song) :
  forall hype chill mixed,
    (exists labelled,
        Forall2 (labelled_as profile) songs labelled /\
        for_each (add_song profile) songs (three hype chill mixed)
        = Ok (three (hype ++ select "Hype" labelled)
                    (chill ++ select "Chill" labelled)
                    (mixed ++ select "Mixed" labelled))) \/
    (for_each (add_song profile) songs (three hype chill mixed) = Raise TypeError /\
     exists raw,
       In raw songs /\
       classify_song (normalize_song raw) profile = Raise TypeError).
Proof.
  induction songs as [|raw songs IH]; intros hype chill mixed.
  - left. exists []. split; [constructor|]. cbn. now rewrite !app_nil_r.
  - destruct (classify_song (normalize_song raw) profile) as [mood|e] eqn:E.
    + assert (Hs : labelled_as profile raw
                     (setitem (normalize_song raw) "mood" (VStr mood)))
        by now exists mood.
      cbn [for_each]. rewrite (add_song_three _ hype chill mixed _ _ Hs).
      cbn [bind].
      destruct (IH (hype ++ select "Hype" [setitem (normalize_song raw) "mood" (VStr mood)])
                   (chill ++ select "Chill" [setitem (normalize_song raw) "mood" (VStr mood)])
                   (mixed ++ select "Mixed" [setitem (normalize_song raw) "mood" (VStr mood)]))
        as [[labelled [HL Hrun]]|[Hrun [raw' [Hin Hraise]]]].
      * left. exists (setitem (normalize_song raw) "mood" (VStr mood) :: labelled).
        split; [now constructor|]. refine (eq_trans Hrun _).
        unfold select. cbn [filter].
        destruct (has_mood "Hype" _), (has_mood "Chill" _), (has_mood "Mixed" _);
          now rewrite <- ?app_assoc.
      * right. split; [exact Hrun|]. exists raw'. split; [now right|exact Hraise].
    + right. cbn [for_each]. rewrite (add_song_raises _ _ _ _ E). cbn [bind].
      split; [reflexivity|]. exists raw. split; [now left|].
      now rewrite <- (classify_song_raises _ _ _ E).
Qed.

Lemma build_playlists_cases (songs : list Song) (profile : dict pyval) :
  (exists labelled,
      Forall2 (labelled_as profile) songs labelled /\
      build_playlists songs profile
      = Ok (three (select "Hype" labelled) (select "Chill" labelled)
                  (select "Mixed" labelled))) \/
  (build_playlists songs profile = Raise TypeError /\
   exists raw,
     In raw songs /\ classify_song (normalize_song raw) profile = Raise TypeError).
Proof. exact (build_from_three_outcome profile songs [] [] []). Qed.

Lemma build_playlists_inv (songs : list Song) (profile : dict pyval) (p : PlaylistMap) :
  build_playlists songs profile = Ok p ->
  exists labelled,
    Forall2 (labelled_as profile) songs labelled /\
    p = three (select "Hype" labelled) (select "Chill" labelled)
              (select "Mixed" labelled).
Proof.
  intros H. destruct (build_playlists_cases songs profile)
    as [[labelled [HL Hrun]]|[Hrun _]]; [|congruence].
  exists labelled. split; [exact HL|congruence].
Qed.

(** X13: [build_playlists] has two outcomes.  Either classifying every
    normalized song succeeds, and it returns the map of the three moods
    filled in input order; or classifying some normalized song raises
    [TypeError], and so does [build_playlists].  It raises nothing else: the
    key it subscripts with is always one of the three it created. *)
Theorem build_playlists_outcome (songs : list Song) (profile : dict pyval) :
  (exists labelled,
      Forall2 (labelled_as profile) songs labelled /\
      build_playlists songs profile
      = Ok [("Hype", select "Hype" labelled);
            ("Chill", select "Chill" labelled);
            ("Mixed", select "Mixed" labelled)]) \/
  (build_playlists songs profile = Raise TypeError /\
   exists raw,
     In raw songs /\ classify_song (normalize_song raw) profile = Raise TypeError).
Proof. exact (build_playlists_cases songs profile). Qed.

Lemma labelled_mood (profile : dict pyval) (raw s : Song) :
  labelled_as profile raw s ->
  exists mood,
    In mood moods /\ get s "mood" VNone = VStr mood /\
    mood_of s = VStr mood /\
    classify_song (normalize_song raw) profile = Ok mood /\
    s = setitem (normalize_song raw) "mood" (VStr mood).
Proof.
  intros [mood [Hrun ->]]. exists mood.
  split; [exact (classify_song_mood _ _ _ Hrun)|].
  unfold mood_of. rewrite !get_setitem. cbn. auto.
Qed.

Lemma has_mood_eq (m : string) (s : Song) (mood : string) :
  get s "mood" VNone = VStr mood -> has_mood m s = (mood =? m)%string.
Proof. intros H. unfold has_mood. now rewrite H. Qed.

Lemma select_lengths (profile : dict pyval) (songs labelled : list Song) :
  Forall2 (labelled_as profile) songs labelled ->
  (List.length (select "Hype" labelled) + List.length (select "Chill" labelled)
   + List.length (select "Mixed" labelled) = List.length songs)%nat.
Proof.
  induction 1 as [|raw s songs labelled Hs _ IH]; [reflexivity|].
  destruct (labelled_mood _ _ _ Hs) as [mood [Hin [Hm _]]].
  unfold select in *. cbn [filter].
  rewrite !(has_mood_eq _ s mood Hm).
  destruct Hin as [<-|[<-|[<-|[]]]]; cbn [String.eqb Ascii.eqb Bool.eqb List.length];
    cbn [List.length]; lia.
Qed.

Lemma Forall2_In_r {A B : Type} (R : A -> B -> Prop) (l : list A) (l' : list B) (y : B) :
  Forall2 R l l' -> In y l' -> exists x, In x l /\ R x y.
Proof.
  induction 1 as [|a b l l' Hab _ IH]; intros Hin; [contradiction|].
  destruct Hin as [<-|Hin].
  - exists a. split; [now left|exact Hab].
  - destruct (IH Hin) as [x [Hx HR]]. exists x. split; [now right|exact HR].
Qed.

Lemma Forall2_In_l {A B : Type} (R : A -> B -> Prop) (l : list A) (l' : list B) (x : A) :
  Forall2 R l l' -> In x l -> exists y, In y l' /\ R x y.
Proof.
  induction 1 as [|a b l l' Hab _ IH]; intros Hin; [contradiction|].
  destruct Hin as [<-|Hin].
  - exists b. split; [now left|exact Hab].
  - destruct (IH Hin) as [y [Hy HR]]. exists y. split; [now right|exact HR].
Qed.

Lemma get_three (hype chill mixed : list Song) (m : string) :
  get (three hype chill mixed) m []
  = if (m =? "Hype")%string then hype
    else if (m =? "Chill")%string then chill
    else if (m =? "Mixed")%string then mixed else [].
Proof.
  unfold get, three. cbn [lookup].
  rewrite (String.eqb_sym "Hype"), (String.eqb_sym "Chill"), (String.eqb_sym "Mixed").
  destruct (m =? "Hype")%string; [reflexivity|].
  destruct (m =? "Chill")%string; [reflexivity|].
  now destruct (m =? "Mixed")%string.
Qed.

Lemma In_get_three_select (labelled : list Song) (m : string) (s : Song) :
  In s (get (three (select "Hype" labelled) (select "Chill" labelled)
                   (select "Mixed" labelled)) m []) ->
  In s labelled /\ has_mood m s = true.
Proof.
  rewrite get_three.
  destruct (String.eqb_spec m "Hype") as [->|_]; [apply filter_In|].
  destruct (String.eqb_spec m "Chill") as [->|_]; [apply filter_In|].
  destruct (String.eqb_spec m "Mixed") as [->|_]; [apply filter_In|].
  contradiction.
Qed.

(** X14: when [build_playlists] returns, no song is lost or invented: the
    map has the keys "Hype", "Chill", "Mixed" in this order, its sequences
    hold as many songs as the input, and every song under a key is the
    normalization of an input song that the classifier labelled with that
    key, with the key as its [mood] field. *)
Theorem build_playlists_conserves (songs : list Song) (profile : dict pyval)
  (p : PlaylistMap) (Hrun : build_playlists songs profile = Ok p) :
  keys p = ["Hype"; "Chill"; "Mixed"] /\
  List.length (List.concat (values p)) = List.length songs /\
  forall m s,
    In s (get p m []) ->
    lookup s "mood" = Some (VStr m) /\
    exists raw,
      In raw songs /\
      classify_song (normalize_song raw) profile = Ok m /\
      s = setitem (normalize_song raw) "mood" (VStr m).
Proof.
  destruct (build_playlists_inv songs profile p Hrun) as [labelled [HL ->]].
  split; [reflexivity|]. split.
  - cbn [three values map snd List.concat].
    rewrite !length_app. cbn [List.length].
    rewrite <- (select_lengths profile songs labelled HL). lia.
  - intros m s Hin. apply In_get_three_select in Hin as [Hin Hm].
    destruct (Forall2_In_r _ _ _ _ HL Hin) as [raw [Hraw Hs]].
    destruct (labelled_mood _ _ _ Hs) as [mood [_ [Hg [_ [Hc ->]]]]].
    rewrite (has_mood_eq m _ mood Hg) in Hm. apply String.eqb_eq in Hm. subst mood.
    split.
    + rewrite lookup_setitem. reflexivity.
    + exists raw. auto.
Qed.

Lemma build_playlists_conserves_witness :
  List.length (List.concat (values scenario_built)) = List.length scenario_songs.
Proof.
  apply (build_playlists_conserves scenario_songs DEFAULT_PROFILE scenario_built).
  reflexivity.
Defined.

(** ** The functions together *)

Section BuildAndMerge.
Variable set_iter : list string -> list string.
Hypothesis set_iter_elements : forall l k, In k (set_iter l) <-> In k l.

(** X15: building two lists of songs apart and merging the two maps gives,
    under every key, the sequence that building the concatenated list
    gives; only the order of the keys of the merged map is left to the
    interpreter. *)
Theorem merge_of_builds (s1 s2 : list Song) (profile : dict pyval)
  (p1 p2 : PlaylistMap)
  (H1 : build_playlists s1 profile = Ok p1)
  (H2 : build_playlists s2 profile = Ok p2) :
  exists p,
    build_playlists (s1 ++ s2) profile = Ok p /\
    forall k, lookup (merge_playlists set_iter p1 p2) k = lookup p k.
Proof.
  destruct (build_playlists_inv _ _ _ H1) as [l1 [HL1 ->]].
  destruct (build_playlists_inv _ _ _ H2) as [l2 [HL2 ->]].
  assert (HL : Forall2 (labelled_as profile) (s1 ++ s2) (l1 ++ l2))
    by now apply Forall2_app.
  eexists. split; [exact (build_playlists_labelled _ _ _ HL)|].
  intros k. rewrite (lookup_merge set_iter set_iter_elements).
  unfold select. rewrite !filter_app.
  destruct (in_dec string_dec k _) as [Hk|Hk].
  - cbn in Hk. unfold get, three. cbn [lookup].
    destruct Hk as [<-|[<-|[<-|[<-|[<-|[<-|[]]]]]]]; reflexivity.
  - symmetry. apply lookup_None. intros Hin. apply Hk.
    apply in_or_app. left. exact Hin.
Qed.
End BuildAndMerge.

Lemma merge_of_builds_witness :
  exists p,
    build_playlists (scenario_songs ++ scenario_songs) DEFAULT_PROFILE = Ok p /\
    forall k,
      lookup (merge_playlists (nodup string_dec) scenario_built scenario_built) k
      = lookup p k.
Proof.
  apply (merge_of_builds (nodup string_dec) (fun l k => nodup_In string_dec l k)
           scenario_songs scenario_songs DEFAULT_PROFILE
           scenario_built scenario_built); reflexivity.
Defined.

Lemma labelled_energy (profile : dict pyval) (songs labelled : list Song) :
  Forall (fun raw => raw_energy_ok raw = true) songs ->
  Forall2 (labelled_as profile) songs labelled ->
  Forall (fun s => energy_is_number s = true) labelled.
Proof.
  intros Hs HL. induction HL as [|raw s songs labelled H _ IH]; [constructor|].
  inversion Hs as [|? ? Hraw Hs']; subst. constructor; [|now apply IH].
  destruct H as [mood [_ ->]]. unfold energy_is_number. rewrite get_setitem.
  cbn [String.eqb Ascii.eqb Bool.eqb].
  destruct (normalized_energy_int raw Hraw) as [e He]. now rewrite He.
Qed.

Lemma Forall_select (P : Song -> Prop) (m : string) (songs : list Song) :
  Forall P songs -> Forall P (select m songs).
Proof.
  intros H. apply Forall_forall. intros s Hs. apply filter_In in Hs as [Hs _].
  revert s Hs. now apply Forall_forall.
Qed.

Lemma labelled_bounded (profile : dict pyval) (songs labelled : list Song) :
  Forall (fun raw => energy_bounded (normalize_song raw) = true) songs ->
  Forall2 (labelled_as profile) songs labelled ->
  Forall (fun s => energy_bounded s = true) labelled.
Proof.
  intros Hs HL. induction HL as [|raw s songs labelled H _ IH]; [constructor|].
  inversion Hs as [|? ? Hraw Hs']; subst. constructor; [|now apply IH].
  destruct H as [mood [_ ->]]. unfold energy_bounded, int_energy in *.
  rewrite get_setitem. exact Hraw.
Qed.

Lemma sum_bounded (songs : list Song) :
  Forall (fun s => energy_bounded s = true) songs ->
  Z.abs (sum_Z (map int_energy songs)) <= (float_overflow - 1) * len songs.
Proof.
  unfold len. induction 1 as [|s songs Hs _ IH].
  - simpl. lia.
  - unfold energy_bounded in Hs. apply Z.ltb_lt in Hs.
    unfold sum_Z in *. cbn [map fold_right List.length].
    rewrite Nat2Z.inj_succ, Z.mul_succ_r. lia.
Qed.

Lemma bounded_in_range (p : PlaylistMap) :
  Forall (fun s => energy_bounded s = true) (get p "Hype" []) ->
  avg_in_range p.
Proof.
  intros H. unfold avg_in_range.
  destruct (is_empty (List.concat (values p))) eqn:E.
  - left. now destruct (List.concat (values p)).
  - right. pose proof (len_positive _ E) as Hpos.
    pose proof (sum_bounded _ H) as Hsum.
    pose proof (length_get_le p "Hype") as Hle.
    pose proof float_overflow_large as HF.
    assert (Hmono : (float_overflow - 1) * len (get p "Hype" [])
                    <= (float_overflow - 1) * len (List.concat (values p))).
    { apply Z.mul_le_mono_nonneg_l; [lia|]. unfold len. lia. }
    lia.
Qed.

(** X16: for raw songs whose [energy] is absent, text, an integer or a
    boolean, and after normalization of a magnitude a float can hold, and
    a profile with integer thresholds, building the playlists and
    computing their statistics both succeed; [total_songs] is the number
    of input songs, and the three counts add up to it. *)
Theorem build_then_stats (songs : list Song) (profile : dict pyval)
  (Hprofile : thresholds_ok profile = true)
  (Hsongs : Forall (fun raw => raw_energy_ok raw = true) songs)
  (Hbound : Forall (fun raw => energy_bounded (normalize_song raw) = true) songs) :
  exists p st,
    build_playlists songs profile = Ok p /\
    compute_playlist_stats p = Ok st /\
    total_songs st = Z.of_nat (List.length songs) /\
    hype_count st + chill_count st + mixed_count st = total_songs st.
Proof.
  destruct (label_all profile songs Hprofile Hsongs) as [labelled HL].
  pose proof (labelled_energy profile songs labelled Hsongs HL) as He.
  pose proof (labelled_bounded profile songs labelled Hbound HL) as Hb.
  set (p := three (select "Hype" labelled) (select "Chill" labelled)
                  (select "Mixed" labelled)).
  destruct (most_common_artist_top (List.concat (values p))) as [top [n [Htop _]]].
  assert (Hnum : Forall (fun s => energy_is_number s = true) (get p "Hype" []))
    by (apply (Forall_select _ "Hype"); exact He).
  assert (Hrange : avg_in_range p)
    by (apply bounded_in_range, (Forall_select _ "Hype"); exact Hb).
  exists p. eexists.
  split; [exact (build_playlists_labelled _ _ _ HL)|].
  split; [exact (compute_playlist_stats_run p _ Hnum Hrange Htop)|].
  unfold stats_of. cbn [total_songs hype_count chill_count mixed_count].
  assert (Hlen : len (List.concat (values p)) = Z.of_nat (List.length songs)).
  { unfold len. f_equal. unfold p. cbn [three values map snd List.concat].
    rewrite !length_app. cbn [List.length].
    rewrite <- (select_lengths profile songs labelled HL). lia. }
  split; [exact Hlen|]. rewrite Hlen.
  rewrite <- (select_lengths profile songs labelled HL).
  unfold p, len. cbn. lia.
Qed.

Lemma build_then_stats_witness :
  exists p st,
    build_playlists scenario_songs DEFAULT_PROFILE = Ok p /\
    compute_playlist_stats p = Ok st /\
    total_songs st = 2 /\
    hype_count st + chill_count st + mixed_count st = total_songs st.
Proof.
  apply (build_then_stats scenario_songs DEFAULT_PROFILE).
  - reflexivity.
  - repeat constructor.
  - repeat constructor.
Defined.

Example build_then_stats_overflow :
  (p <- build_playlists
          [[("genre", VStr "rock"); ("energy", VInt (10 ^ 400))]] DEFAULT_PROFILE ;;
   compute_playlist_stats p)
  = Raise OverflowError.
Proof. vm_compute. reflexivity. Qed.

(** X17: every song given to [build_playlists] is found again, by
    [contains_song], among the songs of the playlists built. *)
Theorem contains_song_after_build (songs : list Song) (profile : dict pyval)
  (p : PlaylistMap) (raw : Song)
  (Hrun : build_playlists songs profile = Ok p)
  (Hraw : In raw songs) :
  contains_song (List.concat (values p)) raw = true.
Proof.
  destruct (build_playlists_inv _ _ _ Hrun) as [labelled [HL ->]].
  destruct (Forall2_In_l _ _ _ _ HL Hraw) as [s [Hs Hlab]].
  apply contains_song_iff. exists s. split.
  - cbn [three values map snd List.concat]. rewrite app_nil_r.
    pose proof (labelled_has_mood _ _ _ Hlab) as Hm.
    rewrite !in_app_iff. unfold select. rewrite !filter_In.
    destruct (has_mood "Hype" s); [tauto|].
    destruct (has_mood "Chill" s); [tauto|].
    destruct (has_mood "Mixed" s); [tauto|discriminate].
  - destruct Hlab as [mood [_ ->]].
    rewrite song_key_setitem by discriminate. apply song_key_normalized.
Qed.

Lemma contains_song_after_build_witness :
  contains_song (List.concat (values scenario_built))
    [("title", VStr "Go Loud"); ("artist", VStr "The Crows");
     ("genre", VStr "rock"); ("energy", VInt 9)] = true.
Proof.
  apply (contains_song_after_build scenario_songs DEFAULT_PROFILE scenario_built).
  - reflexivity.
  - simpl. tauto.
Defined.

Lemma random_choice_member (randbelow : nat -> nat) (songs : list Song) (s : Song) :
  random_choice_or_none randbelow songs = Ok (Some s) -> In s songs.
Proof.
  unfold random_choice_or_none. destruct (is_empty songs); [discriminate|].
  destruct (nth_error songs (randbelow (List.length songs))) as [x|] eqn:E;
    [|discriminate].
  intros H. injection H as <-. exact (nth_error_In _ _ E).
Qed.

(** X18: whatever the random source draws, a song picked from built
    playlists carries the mood of the mode: "Hype" for mode "hype", "Chill"
    for mode "chill", one of the two for mode "any"; no other mode picks a
    song, and no song labelled "Mixed" is ever picked. *)
Theorem lucky_pick_after_build (randbelow : nat -> nat) (songs : list Song)
  (profile : dict pyval) (p : PlaylistMap) (mode : string) (s : Song)
  (Hrun : build_playlists songs profile = Ok p)
  (Hpick : lucky_pick randbelow p mode = Ok (Some s)) :
  (mode = "hype" /\ lookup s "mood" = Some (VStr "Hype")) \/
  (mode = "chill" /\ lookup s "mood" = Some (VStr "Chill")) \/
  (mode = "any" /\
   (lookup s "mood" = Some (VStr "Hype") \/ lookup s "mood" = Some (VStr "Chill"))).
Proof.
  destruct (build_playlists_inv _ _ _ Hrun) as [labelled [HL ->]].
  rewrite lucky_pick_unfold in Hpick. apply random_choice_member in Hpick.
  assert (Hmood : forall m, In s (select m labelled) ->
                            lookup s "mood" = Some (VStr m)).
  { intros m Hin. apply filter_In in Hin as [Hin Hm].
    destruct (Forall2_In_r _ _ _ _ HL Hin) as [raw [_ Hs]].
    destruct (labelled_mood _ _ _ Hs) as [mood [_ [Hg [_ [_ ->]]]]].
    rewrite (has_mood_eq m _ mood Hg) in Hm. apply String.eqb_eq in Hm.
    subst. now rewrite lookup_setitem. }
  unfold pool in Hpick.
  destruct (String.eqb_spec mode "hype") as [->|_].
  { left. split; [reflexivity|]. now apply Hmood. }
  destruct (String.eqb_spec mode "chill") as [->|_].
  { right. left. split; [reflexivity|]. now apply Hmood. }
  destruct (String.eqb_spec mode "any") as [->|_]; [|contradiction].
  right. right. split; [reflexivity|].
  apply in_app_iff in Hpick as [H|H]; [left|right]; now apply Hmood.
Qed.

Lemma lucky_pick_after_build_witness :
  exists s,
    lucky_pick (fun _ => 0%nat) scenario_built "any" = Ok (Some s) /\
    (lookup s "mood" = Some (VStr "Hype") \/ lookup s "mood" = Some (VStr "Chill")).
Proof.
  eexists. split; [reflexivity|].
  destruct (lucky_pick_after_build (fun _ => 0%nat) scenario_songs DEFAULT_PROFILE
              scenario_built "any" _ eq_refl eq_refl) as [[H _]|[[H _]|[_ H]]].
  - discriminate H.
  - discriminate H.
  - exact H.
Defined.

Lemma tally_app (l1 l2 : list Song) (v : pyval) :
  tally (l1 ++ l2) v = tally l1 v + tally l2 v.
Proof. unfold tally, len. rewrite filter_app, length_app. lia. Qed.

Lemma tally_select (profile : dict pyval) (songs labelled : list Song) (m m' : string) :
  Forall2 (labelled_as profile) songs labelled ->
  tally (select m labelled) (VStr m')
  = if (m =? m')%string then len (select m labelled) else 0.
Proof.
  intros HL. unfold tally. 
  assert (E : forall s, In s (select m labelled) ->
                        py_eqb (mood_of s) (VStr m') = (m =? m')%string).
  { intros s Hin. apply filter_In in Hin as [Hin Hm].
    destruct (Forall2_In_r _ _ _ _ HL Hin) as [raw [_ Hs]].
    destruct (labelled_mood _ _ _ Hs) as [mood [_ [Hg [Hmo _]]]].
    rewrite (has_mood_eq m _ mood Hg) in Hm. apply String.eqb_eq in Hm.
    subst. now rewrite Hmo. }
  destruct (m =? m')%string.
  - now rewrite filter_all.
  - assert (N : filter (fun song => py_eqb (mood_of song) (VStr m')) (select m labelled) = []).
    { induction (select m labelled) as [|s l IH]; [reflexivity|].
      cbn [filter]. rewrite E by now left.
      apply IH. intros s' Hs'. apply E. now right. }
    now rewrite N.
Qed.

(** X19: the history summary of the songs of built playlists counts, under
    each of the three moods, the length of the sequence of that mood. *)
Theorem history_summary_after_build (songs : list Song) (profile : dict pyval)
  (p : PlaylistMap) (Hrun : build_playlists songs profile = Ok p) :
  exists counts,
    history_summary (List.concat (values p)) = Ok counts /\
    vlookup counts (VStr "Hype") = Some (len (get p "Hype" [])) /\
    vlookup counts (VStr "Chill") = Some (len (get p "Chill" [])) /\
    vlookup counts (VStr "Mixed") = Some (len (get p "Mixed" [])).
Proof.
  destruct (build_playlists_inv _ _ _ Hrun) as [labelled [HL ->]].
  set (all := List.concat (values (three (select "Hype" labelled)
                (select "Chill" labelled) (select "Mixed" labelled)))).
  assert (Hall : all = select "Hype" labelled ++ select "Chill" labelled
                       ++ select "Mixed" labelled).
  { unfold all. cbn [three values map snd List.concat]. now rewrite app_nil_r. }
  assert (Hhash : Forall (fun s => hashable (mood_of s) = true) all).
  { rewrite Hall. apply Forall_forall. intros s Hin.
    assert (Hs : In s labelled).
    { rewrite !in_app_iff in Hin. unfold select in Hin. rewrite !filter_In in Hin.
      tauto. }
    destruct (Forall2_In_r _ _ _ _ HL Hs) as [raw [_ Hlab]].
    destruct (labelled_mood _ _ _ Hlab) as [mood [_ [_ [-> _]]]]. reflexivity. }
  destruct (summarized_loop all [] initial_counts) as [counts [Hsum Hs]];
    [constructor|exact Hhash|exact summarized_initial|].
  exists counts. split; [exact Hsum|].
  cbn [app] in Hs. rewrite !(summarized_lookup _ _ Hs) by reflexivity.
  unfold summary_entry. cbn [is_preset py_eqb String.eqb Ascii.eqb Bool.eqb orb].
  rewrite Hall, !tally_app, !(tally_select profile songs labelled) by exact HL.
  cbn [String.eqb Ascii.eqb Bool.eqb]. rewrite !get_three.
  cbn [String.eqb Ascii.eqb Bool.eqb].
  repeat split; f_equal; lia.
Qed.

Lemma history_summary_after_build_witness :
  exists counts,
    history_summary (List.concat (values scenario_built)) = Ok counts /\
    vlookup counts (VStr "Hype") = Some 1 /\
    vlookup counts (VStr "Chill") = Some 1 /\
    vlookup counts (VStr "Mixed") = Some 0.
Proof.
  apply (history_summary_after_build scenario_songs DEFAULT_PROFILE scenario_built).
  reflexivity.
Defined.

(** ** Statistics, again *)

(** X20: [compute_playlist_stats] has three outcomes.  It raises
    [TypeError] when some song under "Hype" has [None], text or a list as
    its [energy].  When every song under "Hype" has an integer (or
    boolean, or absent) [energy], it raises [OverflowError] if the sum of
    these energies over the number of songs is too large for a float, and
    returns otherwise.  The songs under the other keys are never looked at
    for their energy. *)
Theorem compute_playlist_stats_outcome (p : PlaylistMap) :
  (Forall (fun s => energy_is_number s = true) (get p "Hype" []) /\
   (List.concat (values p) = [] \/
    Z.abs (sum_Z (map int_energy (get p "Hype" [])))
    < float_overflow * len (List.concat (values p))) /\
   exists st, compute_playlist_stats p = Ok st) \/
  (Exists (fun s => energy_is_number s = false) (get p "Hype" []) /\
   compute_playlist_stats p = Raise TypeError) \/
  (Forall (fun s => energy_is_number s = true) (get p "Hype" []) /\
   List.concat (values p) <> [] /\
   float_overflow * len (List.concat (values p))
   <= Z.abs (sum_Z (map int_energy (get p "Hype" []))) /\
   compute_playlist_stats p = Raise OverflowError).
Proof.
  destruct (compute_playlist_stats_cases p)
    as [[Hall [Hr [top [_ Hrun]]]]|[H|[Hall [Hr Hrun]]]].
  - left. split; [exact Hall|]. split; [exact Hr|]. eexists. exact Hrun.
  - right. left. exact H.
  - right. right. split; [exact Hall|]. unfold avg_in_range in Hr.
    split; [tauto|]. split; [|exact Hrun].
    destruct (Z.le_gt_cases
                (float_overflow * len (List.concat (values p)))
                (Z.abs (sum_Z (map int_energy (get p "Hype" [])))))
      as [H|H]; [exact H|]. exfalso. apply Hr. right. lia.
Qed.

Lemma ratio_bounds (a b : Z) :
  0 <= a <= b -> 0 < b ->
  (0 <= inject_Z a / inject_Z b)%Q /\ (inject_Z a / inject_Z b <= 1)%Q.
Proof.
  intros Ha Hb.
  assert (Hb' : (0 < inject_Z b)%Q).
  { change (inject_Z 0 < inject_Z b)%Q. rewrite <- Zlt_Qlt. exact Hb. }
  split.
  - apply Qle_shift_div_l; [exact Hb'|]. rewrite Qmult_0_l.
    change (inject_Z 0 <= inject_Z a)%Q. rewrite <- Zle_Qle. lia.
  - apply Qle_shift_div_r; [exact Hb'|]. rewrite Qmult_1_l.
    rewrite <- Zle_Qle. lia.
Qed.

(** X21: in the statistics returned, each of the three counts lies between
    0 and [total_songs], and [hype_ratio] lies between 0 and 1. *)
Theorem stats_bounds (p : PlaylistMap) (st : Stats)
  (Hrun : compute_playlist_stats p = Ok st) :
  0 <= hype_count st <= total_songs st /\
  0 <= chill_count st <= total_songs st /\
  0 <= mixed_count st <= total_songs st /\
  (0 <= hype_ratio st)%Q /\ (hype_ratio st <= 1)%Q.
Proof.
  destruct (compute_playlist_stats_cases p)
    as [[_ [_ [top [_ E]]]]|[[_ E]|[_ [_ E]]]]; try congruence.
  rewrite E in Hrun. injection Hrun as <-. unfold stats_of.
  cbn [hype_count chill_count mixed_count total_songs hype_ratio].
  pose proof (length_get_le p "Hype") as Hh.
  pose proof (length_get_le p "Chill") as Hc.
  pose proof (length_get_le p "Mixed") as Hm.
  unfold len. repeat (split; [lia|]).
  destruct (List.concat (values p)) as [|s all] eqn:Eall; cbn [is_empty].
  - split; discriminate.
  - apply ratio_bounds; cbn [List.length] in *; lia.
Qed.

Lemma stats_bounds_witness :
  exists st,
    compute_playlist_stats scenario_tie = Ok st /\
    (0 <= hype_ratio st)%Q /\ (hype_ratio st <= 1)%Q.
Proof.
  eexists. split; [vm_compute; reflexivity|].
  eapply (stats_bounds scenario_tie). reflexivity.
Defined.

(** X22: on a map that holds no song, whatever its keys, the statistics
    are all zero and the top artist is empty; nothing raises. *)
Theorem stats_without_songs (p : PlaylistMap)
  (Hempty : List.concat (values p) = []) :
  compute_playlist_stats p
  = Ok {| total_songs := 0; hype_count := 0; chill_count := 0; mixed_count := 0;
          hype_ratio := 0%Q; avg_energy := 0%Q;
          top_artist := ""; top_artist_count := 0 |}.
Proof.
  assert (E : forall k, get p k [] = []).
  { intros k. pose proof (length_get_le p k) as H. rewrite Hempty in H.
    destruct (get p k []); [reflexivity|]. cbn [List.length] in H. lia. }
  unfold compute_playlist_stats. rewrite Hempty, !E. reflexivity.
Qed.

Lemma stats_without_songs_witness :
  compute_playlist_stats [("Hype", []); ("Live", [])]
  = Ok {| total_songs := 0; hype_count := 0; chill_count := 0; mixed_count := 0;
          hype_ratio := 0%Q; avg_energy := 0%Q;
          top_artist := ""; top_artist_count := 0 |}.
Proof. apply (stats_without_songs [("Hype", []); ("Live", [])]). reflexivity. Defined.

(** ** Merging, again *)

Lemma list_sum_map_add {A : Type} (f g : A -> nat) (l : list A) :
  list_sum (map (fun x => (f x + g x)%nat) l)
  = (list_sum (map f l) + list_sum (map g l))%nat.
Proof. induction l as [|x l IH]; simpl; [reflexivity|]. rewrite IH. lia. Qed.

Lemma list_sum_map_zero {A : Type} (f : A -> nat) (l : list A) :
  (forall x, In x l -> f x = 0%nat) -> list_sum (map f l) = 0%nat.
Proof.
  induction l as [|x l IH]; intros H; simpl; [reflexivity|].
  rewrite (H x) by now left. apply IH. intros y Hy. apply H. now right.
Qed.

Lemma list_sum_cons (x : nat) (l : list nat) :
  list_sum (x :: l) = (x + list_sum l)%nat.
Proof. reflexivity. Qed.

Lemma get_tail {V : Type} (k0 k : string) (v0 d0 : V) (d : dict V) :
  k0 <> k -> get ((k0, v0) :: d) k d0 = get d k d0.
Proof. intros H. unfold get. cbn [lookup]. now destruct (String.eqb_spec k0 k). Qed.

(** The songs of a dictionary, counted key by key over any duplicate-free
    list of keys that covers its own. *)
Lemma songs_by_key (a : PlaylistMap) :
  NoDup (keys a) ->
  forall ks, NoDup ks -> incl (keys a) ks ->
  list_sum (map (fun k => List.length (get a k [])) ks)
  = List.length (List.concat (values a)).
Proof.
  induction a as [|[k0 v0] a IH]; intros Ha ks Hks Hincl.
  - apply list_sum_map_zero. reflexivity.
  - cbn [keys map fst] in Ha, Hincl. inversion Ha as [|? ? Hk0 Ha']; subst.
    assert (Hin : In k0 ks) by (apply Hincl; now left).
    apply in_split in Hin as [l1 [l2 ->]].
    assert (Hks' : NoDup (l1 ++ l2)) by exact (NoDup_remove_1 _ _ _ Hks).
    assert (Hnot : ~ In k0 (l1 ++ l2)) by exact (NoDup_remove_2 _ _ _ Hks).
    assert (Hincl' : incl (keys a) (l1 ++ l2)).
    { intros k Hk. assert (Hk' : In k (l1 ++ k0 :: l2)) by (apply Hincl; now right).
      apply in_app_iff in Hk' as [H|[H|H]]; apply in_app_iff; auto.
      subst. contradiction. }
    specialize (IH Ha' (l1 ++ l2) Hks' Hincl').
    assert (E : forall l, ~ In k0 l ->
                map (fun k => List.length (get ((k0, v0) :: a) k [])) l
                = map (fun k => List.length (get a k [])) l).
    { intros l Hl. apply map_ext_in. intros k Hk.
      rewrite get_tail; [reflexivity|]. intros ->. contradiction. }
    rewrite map_app, list_sum_app. cbn [map list_sum].
    rewrite !E by (intros H; apply Hnot, in_app_iff; auto).
    rewrite map_app, list_sum_app in IH.
    cbn [values map snd List.concat]. rewrite length_app.
    unfold values in IH. rewrite <- IH.
    unfold get at 2. cbn [lookup]. rewrite String.eqb_refl.
    rewrite list_sum_cons. lia.
Qed.

Section MergeMore.
Variable set_iter : list string -> list string.
Hypothesis set_iter_elements : forall l k, In k (set_iter l) <-> In k l.

Lemma get_merge (a b : PlaylistMap) (k : string) :
  get (merge_playlists set_iter a b) k [] = get a k [] ++ get b k [].
Proof.
  unfold get at 1. rewrite (lookup_merge set_iter set_iter_elements).
  destruct (in_dec string_dec k (keys a ++ keys b)) as [|H]; [reflexivity|].
  rewrite in_app_iff in H. unfold get.
  destruct (lookup a k) eqn:Ea.
  { exfalso. apply H. left. apply lookup_Some_In. congruence. }
  destruct (lookup b k) eqn:Eb; [|reflexivity].
  exfalso. apply H. right. apply lookup_Some_In. congruence.
Qed.

Lemma keys_merge (a b : PlaylistMap) (k : string) :
  In k (keys (merge_playlists set_iter a b)) <-> In k (keys a) \/ In k (keys b).
Proof.
  rewrite <- lookup_Some_In, (lookup_merge set_iter set_iter_elements), <- in_app_iff.
  destruct (in_dec string_dec k (keys a ++ keys b)).
  - split; [tauto|discriminate].
  - split; [congruence|contradiction].
Qed.

Lemma lookup_get {V : Type} (d : dict (list V)) (k : string) :
  lookup d k = if in_dec string_dec k (keys d) then Some (get d k []) else None.
Proof.
  unfold get. destruct (in_dec string_dec k (keys d)) as [H|H].
  - apply lookup_Some_In in H. now destruct (lookup d k).
  - now apply lookup_None.
Qed.

(** X23: under every key, merging with the empty map on either side gives
    back the sequence of the map, and merging three maps gives the same
    sequence however the two merges are grouped. *)
Theorem merge_playlists_monoid (a b c : PlaylistMap) (k : string) :
  lookup (merge_playlists set_iter a []) k = lookup a k /\
  lookup (merge_playlists set_iter [] a) k = lookup a k /\
  lookup (merge_playlists set_iter (merge_playlists set_iter a b) c) k
  = lookup (merge_playlists set_iter a (merge_playlists set_iter b c)) k.
Proof.
  assert (L : forall x y, lookup (merge_playlists set_iter x y) k
              = if in_dec string_dec k (keys (merge_playlists set_iter x y))
                then Some (get x k [] ++ get y k []) else None).
  { intros x y. rewrite lookup_get. now rewrite get_merge. }
  split; [|split].
  - rewrite L, (lookup_get a).
    destruct (in_dec string_dec k (keys (merge_playlists set_iter a []))) as [H|H],
             (in_dec string_dec k (keys a)) as [H'|H'];
      rewrite keys_merge in H; cbn in H; try tauto.
    now rewrite app_nil_r.
  - rewrite L, (lookup_get a).
    destruct (in_dec string_dec k (keys (merge_playlists set_iter [] a))) as [H|H],
             (in_dec string_dec k (keys a)) as [H'|H'];
      rewrite keys_merge in H; cbn in H; try tauto.
  - rewrite !L, !get_merge, app_assoc.
    destruct (in_dec string_dec k _) as [H|H], (in_dec string_dec k _) as [H'|H'];
      rewrite !keys_merge in H, H'; try tauto.
Qed.

(** X24: merging loses no song and invents none: for two maps whose keys
    are distinct, as those of a dictionary are, the merged map holds as
    many songs as the two together. *)
Theorem merge_playlists_song_count (a b : PlaylistMap)
  (Ha : NoDup (keys a)) (Hb : NoDup (keys b)) :
  List.length (List.concat (values (merge_playlists set_iter a b)))
  = (List.length (List.concat (values a)) + List.length (List.concat (values b)))%nat.
Proof.
  set (m := merge_playlists set_iter a b).
  assert (Hm : NoDup (keys m)).
  { unfold m, merge_playlists. apply (NoDup_merge_loop a b _ []). constructor. }
  rewrite <- (songs_by_key m Hm (keys m) Hm (incl_refl _)).
  rewrite (map_ext _ (fun k => (List.length (get a k []) + List.length (get b k []))%nat)).
  2:{ intros k. unfold m. now rewrite get_merge, length_app. }
  rewrite list_sum_map_add.
  rewrite (songs_by_key a Ha (keys m) Hm), (songs_by_key b Hb (keys m) Hm).
  - reflexivity.
  - intros k Hk. apply keys_merge. now right.
  - intros k Hk. apply keys_merge. now left.
Qed.
End MergeMore.

Lemma merge_playlists_song_count_witness :
  List.length (List.concat (values (merge_playlists (nodup string_dec)
                                      scenario_tie scenario_extra)))
  = 8%nat.
Proof.
  apply (merge_playlists_song_count (nodup string_dec)
           (fun l k => nodup_In string_dec l k) scenario_tie scenario_extra).
  - repeat constructor; simpl; intuition discriminate.
  - repeat constructor; simpl; intuition discriminate.
Defined.

Lemma merge_playlists_monoid_witness :
  lookup (merge_playlists (nodup string_dec) scenario_tie []) "Hype"
  = lookup scenario_tie "Hype".
Proof.
  apply (merge_playlists_monoid (nodup string_dec)
           (fun l k => nodup_In string_dec l k) scenario_tie [] [] "Hype").
Defined.

(** ** The history summary, again *)

Lemma vinsert_sum (d : vdict Z) (k : pyval) :
  sum_Z (map snd (vinsert d k (match vlookup d k with Some c => c | None => 0 end + 1)))
  = sum_Z (map snd d) + 1.
Proof.
  unfold sum_Z. induction d as [|[k0 c0] d IH]; cbn [vinsert vlookup].
  - reflexivity.
  - destruct (py_eqb k0 k); cbn [map snd fold_right].
    + lia.
    + rewrite IH. lia.
Qed.

Lemma count_mood_cases (counts : vdict Z) (song : Song) :
  (hashable (mood_of song) = true /\
   exists counts',
     count_mood counts song = Ok counts' /\
     sum_Z (map snd counts') = sum_Z (map snd counts) + 1) \/
  (hashable (mood_of song) = false /\ count_mood counts song = Raise TypeError).
Proof.
  unfold count_mood. fold (mood_of song). unfold vget, vsetitem.
  destruct (hashable (mood_of song)); cbn [bind].
  - left. split; [reflexivity|]. eexists. split; [reflexivity|]. apply vinsert_sum.
  - right. split; reflexivity.
Qed.

Lemma history_loop_cases (history : list Song) :
  forall counts,
    (Forall (fun s => hashable (mood_of s) = true) history /\
     exists counts',
       for_each count_mood history counts = Ok counts' /\
       sum_Z (map snd counts') = sum_Z (map snd counts) + len history) \/
    (Exists (fun s => hashable (mood_of s) = false) history /\
     for_each count_mood history counts = Raise TypeError).
Proof.
  induction history as [|song history IH]; intros counts.
  - left. split; [constructor|]. exists counts. split; [reflexivity|].
    unfold len. simpl. lia.
  - cbn [for_each].
    destruct (count_mood_cases counts song) as [[Hm [c1 [E1 S1]]]|[Hm E1]].
    + rewrite E1. cbn [bind].
      destruct (IH c1) as [[Hall [c2 [E2 S2]]]|[Hex E2]].
      * left. split; [now constructor|]. exists c2. split; [exact E2|].
        rewrite S2, S1. unfold len. cbn [List.length]. lia.
      * right. split; [now apply Exists_cons_tl|exact E2].
    + right. rewrite E1. split; [now apply Exists_cons_hd|reflexivity].
Qed.

(** X25: [history_summary] returns when every [mood] in the history can be
    a dictionary key, and raises [TypeError] when some song has a list as
    its [mood]. *)
Theorem history_summary_outcome (history : list Song) :
  (Forall (fun s => hashable (get s "mood" (VStr "Mixed")) = true) history /\
   exists counts, history_summary history = Ok counts) \/
  (Exists (fun s => hashable (get s "mood" (VStr "Mixed")) = false) history /\
   history_summary history = Raise TypeError).
Proof.
  destruct (history_loop_cases history initial_counts)
    as [[Hall [counts [E _]]]|[Hex E]].
  - left. split; [exact Hall|]. now exists counts.
  - right. split; [exact Hex|exact E].
Qed.

(** X26: the counts of a summary add up to the number of songs in the
    history: every song is counted once. *)
Theorem history_summary_total (history : list Song) (counts : vdict Z)
  (Hrun : history_summary history = Ok counts) :
  sum_Z (map snd counts) = Z.of_nat (List.length history).
Proof.
  destruct (history_loop_cases history initial_counts)
    as [[_ [counts' [E S]]]|[_ E]]; unfold history_summary in Hrun; [|congruence].
  rewrite E in Hrun. injection Hrun as <-. rewrite S. reflexivity.
Qed.

Lemma history_summary_total_witness :
  sum_Z (map snd [(VStr "Hype", 1); (VStr "Chill", 0); (VStr "Mixed", 1);
                  (VStr "Party", 2)])
  = Z.of_nat (List.length scenario_history).
Proof. apply (history_summary_total scenario_history). reflexivity. Defined.

(** ** Numbers written as text *)

Lemma digit_not_space (c : ascii) :
  PyStr.is_digit c = true -> PyStr.is_int_space c = false.
Proof.
  destruct c as [b0 b1 b2 b3 b4 b5 b6 b7];
    destruct b0, b1, b2, b3, b4, b5, b6, b7; vm_compute; congruence.
Qed.

Lemma digits_only_uint (d : Decimal.uint) :
  digits_only (NilEmpty.string_of_uint d) = true.
Proof. induction d; simpl; auto. Qed.

Lemma digits_no_rstrip (s : string) :
  digits_only s = true -> PyStr.int_rstrip s = s.
Proof.
  induction s as [|c s IH]; intros H; [reflexivity|].
  cbn [digits_only] in H. apply andb_true_iff in H as [Hc Hs].
  cbn [PyStr.int_rstrip]. rewrite (IH Hs), (digit_not_space c Hc).
  now destruct s.
Qed.

Lemma digits_no_strip (s : string) :
  digits_only s = true ->
  PyStr.int_lstrip (PyStr.int_rstrip s) = s.
Proof.
  intros H. rewrite (digits_no_rstrip s H). destruct s as [|c s]; [reflexivity|].
  cbn [digits_only] in H. apply andb_true_iff in H as [Hc _].
  cbn [PyStr.int_lstrip]. now rewrite (digit_not_space c Hc).
Qed.

Lemma int_digits_acc (d : Decimal.uint) :
  forall acc : positive,
    PyStr.int_digits (Z.pos acc) (NilEmpty.string_of_uint d)
    = Some (Z.pos (Pos.of_uint_acc d acc)).
Proof.
  induction d as [|d IH|d IH|d IH|d IH|d IH|d IH|d IH|d IH|d IH|d IH];
    intros acc; cbn [NilEmpty.string_of_uint PyStr.int_digits Pos.of_uint_acc];
    [reflexivity|..];
    match goal with
    | |- context [PyStr.is_digit ?c] => change (PyStr.is_digit c) with true
    end;
    cbn iota; rewrite <- IH; f_equal;
    match goal with
    | |- context [PyStr.digit_value ?c] =>
        let v := eval vm_compute in (PyStr.digit_value c) in
        change (PyStr.digit_value c) with v
    end; lia.
Qed.

Lemma int_digits_uint (d : Decimal.uint) :
  PyStr.int_digits 0 (NilEmpty.string_of_uint d) = Some (Z.of_uint d).
Proof.
  unfold Z.of_uint.
  induction d as [|d IH|d IH|d IH|d IH|d IH|d IH|d IH|d IH|d IH|d IH];
    cbn [NilEmpty.string_of_uint PyStr.int_digits Pos.of_uint];
    [reflexivity|exact IH|..];
    match goal with
    | |- context [PyStr.is_digit ?c] => change (PyStr.is_digit c) with true
    end;
    cbn iota; apply int_digits_acc.
Qed.

Lemma to_int_digits (c : ascii) (s : string) :
  digits_only (String c s) = true ->
  PyStr.to_int (String c s) = PyStr.int_digits 0 (String c s).
Proof.
  intros H. unfold PyStr.to_int. rewrite (digits_no_strip _ H).
  cbn [digits_only] in H. apply andb_true_iff in H as [Hc _].
  destruct c as [b0 b1 b2 b3 b4 b5 b6 b7];
    destruct b0, b1, b2, b3, b4, b5, b6, b7;
    try discriminate Hc; reflexivity.
Qed.

Lemma to_int_uint (d : Decimal.uint) :
  PyStr.to_int (NilZero.string_of_uint d) = Some (Z.of_uint d).
Proof.
  unfold NilZero.string_of_uint.
  destruct (NilEmpty.string_of_uint d) as [|c s] eqn:E.
  - destruct d; try discriminate E. reflexivity.
  - assert (Hd : digits_only (String c s) = true)
      by (rewrite <- E; apply digits_only_uint).
    assert (R : PyStr.to_int (String c s) = Some (Z.of_uint d))
      by (rewrite (to_int_digits c s Hd), <- E; apply int_digits_uint).
    destruct d; try exact R. discriminate E.
Qed.

Lemma to_int_negative (s : string) :
  s <> "" -> digits_only s = true ->
  PyStr.to_int (String "-" s) = option_map Z.opp (PyStr.to_int s).
Proof.
  intros Hne Hd. destruct s as [|c s]; [congruence|].
  rewrite (to_int_digits c s Hd).
  unfold PyStr.to_int.
  change (PyStr.int_rstrip (String "-" (String c s)))
    with (match PyStr.int_rstrip (String c s) with
          | EmptyString => if PyStr.is_int_space "-" then EmptyString
                           else String "-" EmptyString
          | r => String "-" r
          end).
  rewrite (digits_no_rstrip _ Hd). cbn [PyStr.int_lstrip].
  change (PyStr.is_int_space "-") with false. cbn iota.
  cbn [digits_only] in Hd. apply andb_true_iff in Hd as [Hc _].
  unfold PyStr.int_unsigned. rewrite Hc.
  cbn [PyStr.int_digits]. rewrite Hc. reflexivity.
Qed.

Lemma to_int_of_string (z : Z) : PyStr.to_int (int_to_string z) = Some z.
Proof.
  unfold int_to_string. rewrite <- (DecimalZ.of_to z) at 2.
  destruct (Z.to_int z) as [d|d]; cbn [NilZero.string_of_int Z.of_int].
  - apply to_int_uint.
  - rewrite to_int_negative.
    + now rewrite to_int_uint.
    + unfold NilZero.string_of_uint. destruct d; discriminate.
    + unfold NilZero.string_of_uint.
      destruct d; try reflexivity; apply (digits_only_uint (_ d)).
Qed.

(** X27: an integer energy written out as text is read back as that
    integer: the raw record with the text normalizes to the same record as
    the raw record with the integer itself (the cap on the number of
    digits aside, which the model leaves out). *)
Theorem normalize_song_energy_text (raw : Song) (z : Z) :
  normalize_song (setitem raw "energy" (VStr (py_str (VInt z))))
  = normalize_song (setitem raw "energy" (VInt z)).
Proof.
  unfold normalize_song. rewrite !get_setitem.
  cbn [String.eqb Ascii.eqb Bool.eqb py_str py_repr].
  now rewrite to_int_of_string.
Qed.
